(** * tao-bot: the document parser and the selector of [tao-bot.py]

    A shallow embedding of [parse_book] and [random_phrase] and the
    properties of the two that the design document states.

    Conventions of the embedding.
    - A Python [str] is a Rocq [string]; a character is an 8-bit [ascii],
      read as the code points U+0000 to U+00FF.
    - A Python [dict] is an association list in insertion order
      ([list(d.keys())] is the list of first components).
    - [sys.exit(1)] after a diagnostic and the exceptions raised by
      subscripts and by [random.choice] are values of [exn]; a computation
      that can fail returns a [result].
    - [random.choice] draws from an explicit random number. *)

From Stdlib Require Import String Ascii List Bool Arith Lia.
From Stdlib Require Import DecimalString.
Import ListNotations.

Open Scope string_scope.
Open Scope list_scope.

(** ** Python strings *)

Module PyStr.

(** The line terminator ["\n"], U+000A. *)
Definition nl : string := String (ascii_of_nat 10) EmptyString.

(** [str.isspace] on one character of the range U+0000..U+00FF:
    U+0009..U+000D, U+001C..U+0020, U+0085 and U+00A0. *)
Definition isspace (c : ascii) : bool :=
  let n := nat_of_ascii c in
  (((9 <=? n) && (n <=? 13)) || ((28 <=? n) && (n <=? 32))
   || (n =? 133) || (n =? 160))%nat.

(** [s.startswith(p)]. *)
Definition startswith (s p : string) : bool := String.prefix p s.

(** [s.lstrip(chars)] for a set of characters given as a predicate. *)
Fixpoint lstrip_by (p : ascii -> bool) (s : string) : string :=
  match s with
  | String c s' => if p c then lstrip_by p s' else s
  | EmptyString => EmptyString
  end.

(** [s.rstrip(chars)]: a character is dropped when it is in the set and
    everything after it has been dropped. *)
Fixpoint rstrip_by (p : ascii -> bool) (s : string) : string :=
  match s with
  | String c s' =>
      match rstrip_by p s' with
      | EmptyString => if p c then EmptyString else String c EmptyString
      | r => String c r
      end
  | EmptyString => EmptyString
  end.

(** [s.lstrip("#")]. *)
Definition lstrip_hash (s : string) : string :=
  lstrip_by (Ascii.eqb "#"%char) s.

(** [s.strip()]: leading and trailing whitespace removed. *)
Definition strip (s : string) : string :=
  rstrip_by isspace (lstrip_by isspace s).

(** [sep.join(l)]. *)
Definition join (sep : string) (l : list string) : string :=
  String.concat sep l.

(** Truth value of a [str]: the empty string is false. *)
Definition truthy (s : string) : bool :=
  match s with EmptyString => false | String _ _ => true end.

(** Truth value of a [str | None]. *)
Definition truthy_opt (o : option string) : bool :=
  match o with Some s => truthy s | None => false end.

(** [f.readlines()] on the text of the file (after the translation of
    line ends to ["\n"]): the text is cut after each ["\n"], which stays
    at the end of its line; a last line without ["\n"] is kept. *)
Fixpoint readlines (s : string) : list string :=
  match s with
  | EmptyString => []
  | String c s' =>
      if Ascii.eqb c (ascii_of_nat 10) then String c EmptyString :: readlines s'
      else match readlines s' with
           | [] => [String c EmptyString]
           | l :: ls => String c l :: ls
           end
  end.

End PyStr.

(** ** Python dictionaries with string keys, in insertion order *)

Module Dict.

Definition dict (V : Type) : Type := list (string * V).

(** [d.get(k)]. *)
Fixpoint get {V : Type} (d : dict V) (k : string) : option V :=
  match d with
  | [] => None
  | (k', v) :: d' => if String.eqb k' k then Some v else get d' k
  end.

(** [k in d]. *)
Definition mem {V : Type} (d : dict V) (k : string) : bool :=
  match get d k with Some _ => true | None => false end.

(** [d[k] = v]: an existing key keeps its place, a new key goes last. *)
Fixpoint set {V : Type} (d : dict V) (k : string) (v : V) : dict V :=
  match d with
  | [] => [(k, v)]
  | (k', v') :: d' =>
      if String.eqb k' k then (k', v) :: d' else (k', v') :: set d' k v
  end.

(** [list(d.keys())]. *)
Definition keys {V : Type} (d : dict V) : list string := map fst d.

End Dict.

(** ** Failures *)

Inductive exn : Type :=
| DuplicateSectionError (name : string)
    (** [print(f"Error: duplicate section {section}")], [sys.exit(1)] *)
| DuplicateChapterError (name : string)
    (** [print(f"Error: duplicate chapter {chapter}")], [sys.exit(1)] *)
| EmptyBookError
    (** [IndexError] of [random.choice(list(book.keys()))] *)
| EmptyChapterError
    (** [IndexError] of [random.choice(list(book[section].keys()))] *)
| KeyError.
    (** a subscript [d[k]] with [k] not in [d] *)

Inductive result (A : Type) : Type :=
| Ok (a : A)
| Raise (e : exn).
Arguments Ok {A} a.
Arguments Raise {A} e.

Definition bind {A B : Type} (m : result A) (k : A -> result B) : result B :=
  match m with Ok a => k a | Raise e => Raise e end.

Notation "x <- m ;; k" := (bind m (fun x => k))
  (at level 61, m at next level, right associativity).

(** [d[k]] where the key is a variable of type [str | None]. *)
Definition subscript {V : Type} (d : Dict.dict V) (k : option string) : result V :=
  match k with
  | Some k' => match Dict.get d k' with Some v => Ok v | None => Raise KeyError end
  | None => Raise KeyError
  end.

(** ** The parser *)

Definition BOOK_TYPE : Type := Dict.dict (Dict.dict (list string)).

(** The variables of the loop of [parse_book]. *)
Record state : Type := mkState {
  book : BOOK_TYPE;
  section : option string;
  chapter : option string;
  phrase : list string
}.

Definition init : state :=
  {| book := []; section := None; chapter := None; phrase := [] |}.

(** The four ways through the [if]/[elif] chain of the loop body; [Skip] is
    the line that takes none of its branches. *)
Inductive branch : Type := SectionHeader | ChapterHeader | Text | Skip.

Definition dispatch (st : state) (line : string) : branch :=
  if PyStr.startswith line "## " then SectionHeader
  else if PyStr.truthy_opt (section st) && PyStr.startswith line "### "
  then ChapterHeader
  else if PyStr.truthy_opt (section st) && PyStr.truthy_opt (chapter st)
  then Text
  else Skip.

(** The name a header line gives: [line.lstrip("#").strip()]. *)
Definition header_name (line : string) : string :=
  PyStr.strip (PyStr.lstrip_hash line).

(** Body of [if line.startswith("## ")]. *)
Definition section_header (st : state) (line : string) : result state :=
  let name := header_name line in
  if negb (Dict.mem (book st) name) then
    Ok {| book := Dict.set (book st) name [];
          section := Some name; chapter := None; phrase := [] |}
  else Raise (DuplicateSectionError name).

(** Body of [elif section and line.startswith("### ")]. *)
Definition chapter_header (st : state) (line : string) : result state :=
  let name := header_name line in
  chs <- subscript (book st) (section st) ;;
  if negb (Dict.mem chs name) then
    match section st with
    | Some sec =>
        Ok {| book := Dict.set (book st) sec (Dict.set chs name []);
              section := section st; chapter := Some name;
              phrase := phrase st |}
    | None => Raise KeyError
    end
  else Raise (DuplicateChapterError name).

(** Body of [elif section and chapter]. *)
Definition text_line (st : state) (line : string) : result state :=
  if PyStr.truthy (PyStr.strip line) then
    Ok {| book := book st; section := section st; chapter := chapter st;
          phrase := phrase st ++ [PyStr.strip line] |}
  else
    match phrase st with
    | _ :: _ =>
        chs <- subscript (book st) (section st) ;;
        ps <- subscript chs (chapter st) ;;
        match section st, chapter st with
        | Some sec, Some ch =>
            Ok {| book := Dict.set (book st) sec
                            (Dict.set chs ch (ps ++ [PyStr.join PyStr.nl (phrase st)]));
                  section := section st; chapter := chapter st; phrase := [] |}
        | _, _ => Raise KeyError
        end
    | [] => Ok st
    end.

(** One turn of the loop. *)
Definition step (st : state) (line : string) : result state :=
  match dispatch st line with
  | SectionHeader => section_header st line
  | ChapterHeader => chapter_header st line
  | Text => text_line st line
  | Skip => Ok st
  end.

(** The loop [for line in lines], from a given state. *)
Fixpoint run (st : state) (lines : list string) : result state :=
  match lines with
  | [] => Ok st
  | line :: rest => st' <- step st line ;; run st' rest
  end.

(** [parse_book] on the lines read: the book of the last state is
    returned; nothing follows the loop. *)
Definition parse_lines (lines : list string) : result BOOK_TYPE :=
  st <- run init lines ;; Ok (book st).

(** [parse_book] on the text of the file. *)
Definition parse_book (text : string) : result BOOK_TYPE :=
  parse_lines (PyStr.readlines text).

(** ** The selector *)

(** [random.choice(l)] with the number drawn: [l[r mod len(l)]], and
    [IndexError] on an empty list. *)
Definition choice {A : Type} (l : list A) (r : nat) : option A :=
  match l with
  | [] => None
  | _ :: _ => nth_error l (r mod length l)
  end.

(** [random_phrase], with the two numbers drawn by its two choices. *)
Definition random_phrase (b : BOOK_TYPE) (r1 r2 : nat) : result (string * string) :=
  match choice (Dict.keys b) r1 with
  | None => Raise EmptyBookError
  | Some sec =>
      chs <- subscript b (Some sec) ;;
      match choice (Dict.keys chs) r2 with
      | None => Raise EmptyChapterError
      | Some ch =>
          ps <- subscript chs (Some ch) ;;
          Ok ((sec ++ " - Chapter " ++ ch)%string,
              PyStr.join (PyStr.nl ++ PyStr.nl)%string ps)
      end
  end.

(** ** The documents of the examples *)

Definition doc_lines (ls : list string) : string :=
  String.concat EmptyString (map (fun l => (l ++ PyStr.nl)%string) ls).

(** The document that ends right after [Line C]. *)
Definition doc8 : string :=
  (doc_lines ["## Section One"; "### 1"; "Line A"; "Line B"; EmptyString]
   ++ "Line C")%string.

Definition book_one_passage : BOOK_TYPE :=
  [("Section One", [("1", [("Line A" ++ PyStr.nl ++ "Line B")%string])])].

Definition book_two_passages : BOOK_TYPE :=
  [("Section One", [("1", [("Line A" ++ PyStr.nl ++ "Line B")%string; "Line C"])])].

(** The same document followed by a blank line. *)
Definition doc8_blank : string :=
  doc_lines ["## Section One"; "### 1"; "Line A"; "Line B"; EmptyString;
             "Line C"; EmptyString].

(** A content line: not blank after trimming, and no header marker. *)
Definition is_content (line : string) : bool :=
  PyStr.truthy (PyStr.strip line)
  && negb (PyStr.startswith line "## ")
  && negb (PyStr.startswith line "### ").

(** A blank line that is no header ([strip] gives the empty string). *)
Definition is_blank (line : string) : bool :=
  negb (PyStr.truthy (PyStr.strip line))
  && negb (PyStr.startswith line "## ")
  && negb (PyStr.startswith line "### ").

(** Both [section] and [chapter] are true: the guard of the third branch. *)
Definition in_chapter (st : state) : bool :=
  PyStr.truthy_opt (section st) && PyStr.truthy_opt (chapter st).

(** A string that is empty or starts outside the set [p]: what [lstrip_by]
    leaves unchanged. *)
Definition starts_clean (p : ascii -> bool) (s : string) : bool :=
  match s with
  | String c _ => negb (p c)
  | EmptyString => true
  end.

(** A trimmed, non-empty string: what [strip] gives on a line that is not
    blank. *)
Definition trimmed (s : string) : Prop :=
  s <> EmptyString /\ starts_clean PyStr.isspace s = true
  /\ PyStr.rstrip_by PyStr.isspace s = s.

(** [x] is the trimmed text of one of the lines, and is not empty. *)
Definition line_of (lines : list string) (x : string) : Prop :=
  x <> EmptyString /\ exists line, In line lines /\ x = PyStr.strip line.

(** [p] is a passage made of lines of the input: one or more trimmed,
    non-empty lines joined by line ends. *)
Definition passage_of (lines : list string) (p : string) : Prop :=
  exists xs, xs <> [] /\ Forall (line_of lines) xs
             /\ p = PyStr.join PyStr.nl xs.

(** [p] is one of the passages of the book. *)
Definition in_book (b : BOOK_TYPE) (p : string) : Prop :=
  exists sec chs ch ps, In (sec, chs) b /\ In (ch, ps) chs /\ In p ps.

(** Every passage of the book is one of the passages [old] that were there
    at the start, or a passage made of lines of the input. *)
Definition book_of (old : string -> Prop) (lines : list string)
           (b : BOOK_TYPE) : Prop :=
  forall sec chs ch ps p,
    In (sec, chs) b -> In (ch, ps) chs -> In p ps ->
    old p \/ passage_of lines p.

(** What the loop keeps true of the buffer and of the book: the buffer is
    made of lines of the input, and so are the passages added to the
    book. *)
Definition passages_inv (old : string -> Prop) (lines : list string)
           (st : state) : Prop :=
  Forall (line_of lines) (phrase st) /\ book_of old lines (book st).

(** The names given by the section headers of a document, in order. *)
Definition section_names (ls : list string) : list string :=
  map header_name (filter (fun l => PyStr.startswith l "## ") ls).

(** The names given by the lines of a document that start with ["### "],
    in order. *)
Definition chapter_names (ls : list string) : list string :=
  map header_name (filter (fun l => PyStr.startswith l "### ") ls).

(** No line of [ls] is a section header. *)
Definition no_section_header (ls : list string) : Prop :=
  Forall (fun l => PyStr.startswith l "## " = false) ls.

(** The current section is in the book and the current chapter is in the
    current section: the subscripts of the loop find their keys. *)
Definition keys_present (st : state) : Prop :=
  match section st with
  | None => True
  | Some sec =>
      exists chs,
        Dict.get (book st) sec = Some chs
        /\ match chapter st with
           | None => True
           | Some ch => exists ps, Dict.get chs ch = Some ps
           end
  end.

(** A document with a duplicate chapter before a duplicate section. *)
Definition doc_two_duplicates : string :=
  doc_lines ["## A"; "### 1"; "### 1"; "## A"].

(** A section header with an empty name, followed by the same chapter
    header twice. *)
Definition doc_empty_section : string :=
  doc_lines ["## "; "### 1"; "### 1"].

(** ** The driver *)

(** What [main] finds at the resolved path: nothing ([path.exists()] is
    false), something that [open] or [readlines] fails on (a directory, a
    file that cannot be read or decoded), or a text. *)
Inductive file_status : Type :=
| Absent
| Unreadable
| TextFile (text : string).

(** What [requests.post] gives: a response with its [ok], [status_code]
    and [text], or an exception of the library. *)
Inductive reply : Type :=
| Response (ok : bool) (status_code : nat) (text : string)
| RequestFailed.

(** What [main] reads from outside: the file system, the environment
    variable [SLACK_WEBHOOK], the two numbers drawn by the selector and the
    answer of the webhook to a post of a title and a message. *)
Record world : Type := mkWorld {
  resolve : string -> string;
  lookup_path : string -> file_status;
  slack_webhook : option string;
  random1 : nat;
  random2 : nat;
  http_post : string -> string -> string -> reply
}.

(** An exception that nothing catches. *)
Inductive uncaught : Type :=
| UncaughtOSError
| UncaughtIndexError
| UncaughtKeyError
| UncaughtRequestException.

(** How the process ends: [main] returns, [sys.exit(code)] is called, or
    an exception goes uncaught. *)
Inductive exit_status : Type :=
| Returned
| SysExit (code : nat)
| Traceback (e : uncaught).

(** What a run of [main] does: the texts printed, one for each call of
    [print] (a text can hold line ends), the calls of [requests.post]
    (url, title, message) and the way it ends. *)
Record run_log : Type := mkLog {
  stdout : list string;
  posts : list (string * string * string);
  status : exit_status
}.

(** [print(msg)], [sys.exit(1)]. *)
Definition die (msg : string) (sent : list (string * string * string)) : run_log :=
  {| stdout := [msg]; posts := sent; status := SysExit 1 |}.

(** An uncaught exception: nothing is printed on the standard output. *)
Definition crash (e : uncaught) (sent : list (string * string * string)) : run_log :=
  {| stdout := []; posts := sent; status := Traceback e |}.

(** [f"{n}"] for a status code. *)
Definition str_of_nat (n : nat) : string :=
  NilEmpty.string_of_uint (Nat.to_uint n).

(** [main], from [args.path] on. *)
Definition main (w : world) (path_raw : string) : run_log :=
  let path := resolve w path_raw in
  match lookup_path w path with
  | Absent => die ("Error: " ++ path ++ " not found") []
  | Unreadable => crash UncaughtOSError []
  | TextFile text =>
      match parse_book text with
      | Raise (DuplicateSectionError name) =>
          die ("Error: duplicate section " ++ name) []
      | Raise (DuplicateChapterError name) =>
          die ("Error: duplicate chapter " ++ name) []
      | Raise _ => crash UncaughtKeyError []
      | Ok b =>
          match random_phrase b (random1 w) (random2 w) with
          | Raise EmptyBookError => crash UncaughtIndexError []
          | Raise EmptyChapterError => crash UncaughtIndexError []
          | Raise _ => crash UncaughtKeyError []
          | Ok (title, message) =>
              match slack_webhook w with
              | None =>
                  die "Error: SLACK_WEBHOOK environment variable not set" []
              | Some url =>
                  if negb (PyStr.truthy url) then
                    die "Error: SLACK_WEBHOOK environment variable not set" []
                  else
                    match http_post w url title message with
                    | RequestFailed =>
                        crash UncaughtRequestException [(url, title, message)]
                    | Response ok code body =>
                        if negb ok then
                          die ("Error: " ++ str_of_nat code ++ " - " ++ body)
                              [(url, title, message)]
                        else
                          {| stdout := ["Message sent"];
                             posts := [(url, title, message)];
                             status := Returned |}
                    end
              end
          end
      end
  end.

(** A world for the examples: the document of the example with its final
    blank line at every path, a webhook that answers 200. *)
Definition world_ok : world :=
  {| resolve := fun p => ("/srv/" ++ p)%string;
     lookup_path := fun _ => TextFile doc8_blank;
     slack_webhook := Some "https://hooks.example/T";
     random1 := 0; random2 := 0;
     http_post := fun _ _ _ => Response true 200 "ok" |}.

(** The same with a directory at every path. *)
Definition world_unreadable : world :=
  {| resolve := fun p => ("/srv/" ++ p)%string;
     lookup_path := fun _ => Unreadable;
     slack_webhook := Some "https://hooks.example/T";
     random1 := 0; random2 := 0;
     http_post := fun _ _ _ => Response true 200 "ok" |}.

(** A world whose file has no section header and whose webhook is not
    set. *)
Definition world_no_section : world :=
  {| resolve := fun p => p;
     lookup_path := fun _ => TextFile (doc_lines ["# Tao Te Ching"; "### 1"; "Line A"]);
     slack_webhook := None;
     random1 := 0; random2 := 0;
     http_post := fun _ _ _ => RequestFailed |}.

(** ** Documents in the layout the parser is written for *)

(** A document given by its parts: sections with a name, their chapters
    with a name, and for each chapter its blocks of lines. *)
Definition outline : Type :=
  list (string * list (string * list (list string))).

(** A block: its lines, then an empty line. *)
Definition render_block (cs : list string) : list string :=
  cs ++ [PyStr.nl].

Definition render_chapter (c : string * list (list string)) : list string :=
  ("### " ++ fst c ++ PyStr.nl)%string :: flat_map render_block (snd c).

Definition render_section
           (s : string * list (string * list (list string))) : list string :=
  ("## " ++ fst s ++ PyStr.nl)%string :: flat_map render_chapter (snd s).

Definition render (o : outline) : list string :=
  flat_map render_section o.

(** The passage a block gives. *)
Definition passage_text (cs : list string) : string :=
  PyStr.join PyStr.nl (map PyStr.strip cs).

Definition chapter_entry (c : string * list (list string))
  : string * list string :=
  (fst c, map passage_text (snd c)).

Definition section_entry (s : string * list (string * list (list string)))
  : string * Dict.dict (list string) :=
  (fst s, map chapter_entry (snd s)).

Definition book_of_outline (o : outline) : BOOK_TYPE :=
  map section_entry o.

Definition block_ok (cs : list string) : Prop :=
  cs <> [] /\ Forall (fun l => is_content l = true) cs.

Definition chapter_ok (c : string * list (list string)) : Prop :=
  trimmed (fst c) /\ Forall block_ok (snd c).

Definition section_ok
           (s : string * list (string * list (list string))) : Prop :=
  trimmed (fst s) /\ NoDup (map fst (snd s)) /\ Forall chapter_ok (snd s).

(** Names trimmed and not empty, no section name twice, no chapter name
    twice in a section, blocks of one or more lines of content. *)
Definition outline_ok (o : outline) : Prop :=
  NoDup (map fst o) /\ Forall section_ok o.

(** ** Further notions *)

(** [b'] has every chapter of [b], with the passages of [b] first. *)
Definition extends (b b' : BOOK_TYPE) : Prop :=
  forall sec chs ch ps,
    Dict.get b sec = Some chs -> Dict.get chs ch = Some ps ->
    exists chs' more,
      Dict.get b' sec = Some chs' /\ Dict.get chs' ch = Some (ps ++ more).

(** The keys of the book and of each of its sections are without
    repetition: the association lists are dictionaries. *)
Definition book_keys_distinct (b : BOOK_TYPE) : Prop :=
  NoDup (Dict.keys b)
  /\ forall sec chs, In (sec, chs) b -> NoDup (Dict.keys chs).

(** Every chapter key of the book is the name given by a line of [lines]
    that starts with ["### "]. *)
Definition chapter_keys_of (lines : list string) (b : BOOK_TYPE) : Prop :=
  forall sec chs ch ps,
    In (sec, chs) b -> In (ch, ps) chs -> In ch (chapter_names lines).

(** All the characters of [s] are whitespace. *)
Fixpoint all_space (s : string) : bool :=
  match s with
  | EmptyString => true
  | String c s' => PyStr.isspace c && all_space s'
  end.

(** [s] ends with a line end. *)
Fixpoint ends_with_nl (s : string) : bool :=
  match s with
  | EmptyString => false
  | String c EmptyString => Ascii.eqb c (ascii_of_nat 10)
  | String _ s' => ends_with_nl s'
  end.

(** [s] has a line end among its characters. *)
Fixpoint has_nl (s : string) : bool :=
  match s with
  | EmptyString => false
  | String c s' => Ascii.eqb c (ascii_of_nat 10) || has_nl s'
  end.

(** [s] has no line end, except for a last character. *)
Fixpoint nl_only_last (s : string) : bool :=
  match s with
  | EmptyString => true
  | String c EmptyString => true
  | String c s' => negb (Ascii.eqb c (ascii_of_nat 10)) && nl_only_last s'
  end.

(** * Properties *)

(** ** The error monad and the loop *)

Lemma bind_ok_inv {A B : Type} (m : result A) (k : A -> result B) (b : B) :
  bind m k = Ok b -> exists a, m = Ok a /\ k a = Ok b.
Proof.
  destruct m as [a|e]; simpl; intros H; [exists a; auto | discriminate].
Qed.

Lemma run_app (st : state) (l1 l2 : list string) :
  run st (l1 ++ l2) = (st' <- run st l1 ;; run st' l2).
Proof.
  revert st; induction l1 as [|l l1 IH]; intros st; simpl; [reflexivity|].
  destruct (step st l) as [st'|e]; simpl; [apply IH | reflexivity].
Qed.

Lemma run_snoc (st : state) (l1 : list string) (l : string) :
  run st (l1 ++ [l]) = (st' <- run st l1 ;; step st' l).
Proof.
  rewrite run_app. destruct (run st l1) as [st'|e]; simpl; [|reflexivity].
  destruct (step st' l); reflexivity.
Qed.

(** ** Dictionaries *)

Section DictFacts.
Context {V : Type}.
Implicit Types (d : Dict.dict V) (k : string) (v : V).

Lemma get_set_same d k v : Dict.get (Dict.set d k v) k = Some v.
Proof.
  induction d as [|[k' v'] d IH]; simpl.
  - now rewrite String.eqb_refl.
  - destruct (String.eqb k' k) eqn:E; simpl; rewrite E; auto.
Qed.

Lemma get_set_other d k k' v :
  k' <> k -> Dict.get (Dict.set d k v) k' = Dict.get d k'.
Proof.
  intros Hne. induction d as [|[k0 v0] d IH]; simpl.
  - destruct (String.eqb k k') eqn:E; [|reflexivity].
    apply String.eqb_eq in E. congruence.
  - destruct (String.eqb k0 k) eqn:E; simpl.
    + apply String.eqb_eq in E. subst k0.
      destruct (String.eqb k k') eqn:E'; [|reflexivity].
      apply String.eqb_eq in E'. congruence.
    + now rewrite IH.
Qed.

Lemma set_set d k v v' : Dict.set (Dict.set d k v) k v' = Dict.set d k v'.
Proof.
  induction d as [|[k0 v0] d IH]; simpl.
  - now rewrite String.eqb_refl.
  - destruct (String.eqb k0 k) eqn:E; simpl; rewrite E; [reflexivity|].
    now rewrite IH.
Qed.

Lemma in_set d k v k' v' :
  In (k', v') (Dict.set d k v) -> In (k', v') d \/ (k' = k /\ v' = v).
Proof.
  induction d as [|[k0 v0] d IH]; simpl.
  - intros [H|[]]. inversion H; auto.
  - destruct (String.eqb k0 k) eqn:E; simpl.
    + apply String.eqb_eq in E. subst k0.
      intros [H|H]; [inversion H; auto | auto].
    + intros [H|H]; [auto|]. destruct (IH H); auto.
Qed.

Lemma get_in d k v : Dict.get d k = Some v -> In (k, v) d.
Proof.
  induction d as [|[k0 v0] d IH]; simpl; [discriminate|].
  destruct (String.eqb k0 k) eqn:E.
  - apply String.eqb_eq in E. intros H; inversion H; subst; auto.
  - auto.
Qed.

Lemma mem_keys d k : Dict.mem d k = true <-> In k (Dict.keys d).
Proof.
  unfold Dict.mem, Dict.keys.
  induction d as [|[k0 v0] d IH]; simpl.
  - split; [discriminate | tauto].
  - destruct (String.eqb k0 k) eqn:E.
    + apply String.eqb_eq in E. split; auto.
    + apply String.eqb_neq in E. rewrite IH. split; [auto|].
      intros [H|H]; [contradiction | assumption].
Qed.

Lemma keys_get d k : In k (Dict.keys d) -> exists v, Dict.get d k = Some v.
Proof.
  intros H. apply mem_keys in H. unfold Dict.mem in H.
  destruct (Dict.get d k) as [v|]; [eauto | discriminate].
Qed.

Lemma keys_set d k v :
  Dict.keys (Dict.set d k v)
  = if Dict.mem d k then Dict.keys d else Dict.keys d ++ [k].
Proof.
  unfold Dict.mem, Dict.keys.
  induction d as [|[k0 v0] d IH]; simpl; [reflexivity|].
  destruct (String.eqb k0 k) eqn:E; simpl; [reflexivity|].
  rewrite IH. destruct (Dict.get d k); reflexivity.
Qed.

End DictFacts.

(** ** Random choice *)

Lemma choice_none {A : Type} (l : list A) (r : nat) :
  choice l r = None <-> l = [].
Proof.
  destruct l as [|a l]; simpl; [tauto|].
  split; [|discriminate]. intros H.
  apply nth_error_None in H. simpl in H.
  pose proof (Nat.mod_upper_bound r (S (length l))). lia.
Qed.

Lemma choice_singleton {A : Type} (a : A) (r : nat) : choice [a] r = Some a.
Proof. unfold choice, length. now rewrite Nat.mod_1_r. Qed.

Lemma choice_in {A : Type} (l : list A) (r : nat) (a : A) :
  choice l r = Some a -> In a l.
Proof.
  destruct l as [|a0 l]; simpl; [discriminate|]. apply nth_error_In.
Qed.

(** ** Single lines *)

Lemma step_section_header (st : state) (line : string) :
  PyStr.startswith line "## " = true -> step st line = section_header st line.
Proof. unfold step, dispatch. now intros ->. Qed.

Lemma step_no_section (st : state) (line : string) :
  PyStr.startswith line "## " = false -> section st = None ->
  step st line = Ok st.
Proof. unfold step, dispatch. now intros -> ->. Qed.

Lemma step_content (st : state) (line : string) :
  is_content line = true ->
  step st line =
  Ok {| book := book st; section := section st; chapter := chapter st;
        phrase := if in_chapter st then phrase st ++ [PyStr.strip line]
                  else phrase st |}.
Proof.
  unfold is_content, step, dispatch, in_chapter. intros H.
  apply andb_prop in H as [H H3]. apply andb_prop in H as [Ht H2].
  apply negb_true_iff in H2, H3. rewrite H2, H3, andb_false_r.
  destruct (PyStr.truthy_opt (section st) && PyStr.truthy_opt (chapter st)).
  - unfold text_line. now rewrite Ht.
  - now destruct st.
Qed.

Lemma run_content (st : state) (tl : list string) :
  Forall (fun l => is_content l = true) tl ->
  run st tl =
  Ok {| book := book st; section := section st; chapter := chapter st;
        phrase := if in_chapter st then phrase st ++ map PyStr.strip tl
                  else phrase st |}.
Proof.
  intros H. revert st. induction H as [|l tl Hl _ IH]; intros st; simpl.
  - destruct (in_chapter st); [rewrite app_nil_r|]; now destruct st.
  - rewrite (step_content _ _ Hl). simpl. rewrite IH. unfold in_chapter. simpl.
    destruct (PyStr.truthy_opt (section st) && PyStr.truthy_opt (chapter st));
      [now rewrite <- app_assoc | reflexivity].
Qed.

(** ** The trailing passage *)

(** C1. Lines of content at the end of the input, with no blank line after
    them, only reach the passage buffer: the parser returns the book it
    would return without them, and the buffer is not flushed into it. The
    document of the example, which ends right after [Line C], gives the
    book with the single passage [Line A], [Line B]. *)
Theorem trailing_passage_not_flushed :
  (forall ls tl : list string,
      Forall (fun l => is_content l = true) tl ->
      parse_lines (ls ++ tl) = parse_lines ls
      /\ forall st, run init ls = Ok st ->
           exists st', run init (ls ++ tl) = Ok st'
                       /\ book st' = book st
                       /\ (in_chapter st = true ->
                           phrase st' = phrase st ++ map PyStr.strip tl))
  /\ parse_book doc8 = Ok book_one_passage.
Proof.
  split; [|reflexivity].
  intros ls tl Htl. unfold parse_lines. rewrite run_app.
  destruct (run init ls) as [st|e]; simpl.
  - rewrite (run_content _ _ Htl). simpl. split; [reflexivity|].
    intros st0 E. inversion E; subst st0. eexists. split; [reflexivity|].
    simpl. split; [reflexivity|]. now intros ->.
  - split; [reflexivity | discriminate].
Qed.

Lemma trailing_passage_not_flushed_witness :
  parse_lines (PyStr.readlines doc8_blank
               ++ [("Line D" ++ PyStr.nl)%string; "Line E"])
  = parse_lines (PyStr.readlines doc8_blank).
Proof.
  apply (proj1 trailing_passage_not_flushed). repeat constructor.
Defined.

(** C2, as the code has it. With a blank line after [Line C] the document
    of the example gives the book with the two passages; without it,
    [Line C] is not recorded and the book has the first passage only. *)
Theorem example_document_with_final_blank_line :
  parse_book doc8_blank = Ok book_two_passages
  /\ parse_book doc8 = Ok book_one_passage.
Proof. split; reflexivity. Qed.

(** C2 as stated fails: the document that ends with [Line C] does not give
    the book with two passages. *)
Lemma example_document_two_passages_counterexample :
  parse_book doc8 <> Ok book_two_passages.
Proof. vm_compute. discriminate. Qed.

(** ** Lines before the first section *)

Lemma run_no_section (st : state) (pre : list string) :
  section st = None ->
  Forall (fun l => PyStr.startswith l "## " = false) pre ->
  run st pre = Ok st.
Proof.
  intros Hs H. induction H as [|l pre Hl _ IH]; simpl; [reflexivity|].
  now rewrite (step_no_section _ _ Hl Hs).
Qed.

(** C10. Lines that come before the first line starting with ["## "] are
    ignored, whatever they are: after them the variables of the loop are
    what they were at the start, and the parser returns what it returns on
    the rest of the input alone. *)
Theorem lines_before_first_section_ignored (pre rest : list string) :
  Forall (fun l => PyStr.startswith l "## " = false) pre ->
  run init pre = Ok init
  /\ run init (pre ++ rest) = run init rest
  /\ parse_lines (pre ++ rest) = parse_lines rest.
Proof.
  intros H. pose proof (run_no_section init pre eq_refl H) as E.
  split; [exact E|]. unfold parse_lines. rewrite run_app, E. simpl. auto.
Qed.

Lemma lines_before_first_section_ignored_witness :
  let pre :=
    PyStr.readlines (doc_lines ["### 1"; "Line A"; EmptyString; "#"; "Line B"]) in
  let rest := PyStr.readlines doc8_blank in
  run init pre = Ok init
  /\ run init (pre ++ rest) = run init rest
  /\ parse_lines (pre ++ rest) = parse_lines rest.
Proof.
  apply lines_before_first_section_ignored. repeat constructor.
Defined.

(** ** The selector *)

(** C4. On the book of the example the selector returns the same pair for
    every two numbers drawn. On any book, what it returns is made of the
    section and the chapter chosen: the title is the section, [" - Chapter "]
    and the chapter, and the text is the passages of that chapter, in
    their order, joined by two line ends. *)
Theorem random_phrase_result :
  (forall r1 r2,
      random_phrase book_two_passages r1 r2
      = Ok ("Section One - Chapter 1",
            ("Line A" ++ PyStr.nl ++ "Line B" ++ PyStr.nl ++ PyStr.nl ++ "Line C")%string))
  /\ (forall (b : BOOK_TYPE) r1 r2 title text,
         random_phrase b r1 r2 = Ok (title, text) ->
         exists sec chs ch ps,
           choice (Dict.keys b) r1 = Some sec
           /\ Dict.get b sec = Some chs
           /\ choice (Dict.keys chs) r2 = Some ch
           /\ Dict.get chs ch = Some ps
           /\ title = (sec ++ " - Chapter " ++ ch)%string
           /\ text = String.concat (PyStr.nl ++ PyStr.nl) ps).
Proof.
  split.
  - intros r1 r2. unfold random_phrase, book_two_passages.
    cbn [Dict.keys map fst]. rewrite choice_singleton.
    cbn [subscript Dict.get String.eqb Ascii.eqb Bool.eqb bind].
    cbn [Dict.keys map fst]. now rewrite choice_singleton.
  - intros b r1 r2 title text. unfold random_phrase.
    destruct (choice (Dict.keys b) r1) as [sec|] eqn:E1; [|discriminate].
    unfold subscript at 1.
    destruct (Dict.get b sec) as [chs|] eqn:G1; simpl; [|discriminate].
    destruct (choice (Dict.keys chs) r2) as [ch|] eqn:E2; [|discriminate].
    unfold subscript.
    destruct (Dict.get chs ch) as [ps|] eqn:G2; simpl; [|discriminate].
    intros H. inversion H. exists sec, chs, ch, ps. repeat split; auto.
Qed.

Lemma random_phrase_result_witness :
  exists sec chs ch ps,
    choice (Dict.keys book_two_passages) 3 = Some sec
    /\ Dict.get book_two_passages sec = Some chs
    /\ choice (Dict.keys chs) 4 = Some ch
    /\ Dict.get chs ch = Some ps
    /\ "Section One - Chapter 1" = (sec ++ " - Chapter " ++ ch)%string
    /\ ("Line A" ++ PyStr.nl ++ "Line B" ++ PyStr.nl ++ PyStr.nl ++ "Line C")%string
       = String.concat (PyStr.nl ++ PyStr.nl) ps.
Proof.
  apply (proj2 random_phrase_result book_two_passages 3 4). reflexivity.
Defined.

(** C6. The selector fails on a book without sections, where the first
    choice has nothing to choose from (the empty-book failure), and on a
    chosen section without chapters, where the second choice has nothing to
    choose from (the empty-chapter failure). On a book with a section,
    when the section chosen has a chapter, it returns a pair. *)
Theorem random_phrase_preconditions (b : BOOK_TYPE) (r1 r2 : nat) :
  (Dict.keys b = [] -> random_phrase b r1 r2 = Raise EmptyBookError)
  /\ (forall sec,
         choice (Dict.keys b) r1 = Some sec ->
         Dict.get b sec = Some [] ->
         random_phrase b r1 r2 = Raise EmptyChapterError)
  /\ (Dict.keys b <> [] ->
      exists sec chs,
        choice (Dict.keys b) r1 = Some sec /\ Dict.get b sec = Some chs
        /\ (Dict.keys chs <> [] ->
            exists title text, random_phrase b r1 r2 = Ok (title, text))).
Proof.
  unfold random_phrase. split; [|split].
  - intros E. now rewrite E.
  - intros sec E G. rewrite E. simpl. now rewrite G.
  - intros Hne.
    destruct (choice (Dict.keys b) r1) as [sec|] eqn:E1;
      [|apply choice_none in E1; contradiction].
    destruct (keys_get b sec (choice_in _ _ _ E1)) as [chs G1].
    exists sec, chs. repeat split; auto. intros Hc. simpl. rewrite G1. simpl.
    destruct (choice (Dict.keys chs) r2) as [ch|] eqn:E2;
      [|apply choice_none in E2; contradiction].
    destruct (keys_get chs ch (choice_in _ _ _ E2)) as [ps G2].
    simpl. rewrite G2. simpl. eauto.
Qed.

Lemma random_phrase_preconditions_witness :
  random_phrase [] 0 0 = Raise EmptyBookError
  /\ random_phrase [("Section One", [])] 0 0 = Raise EmptyChapterError
  /\ exists sec chs,
       choice (Dict.keys book_two_passages) 1 = Some sec
       /\ Dict.get book_two_passages sec = Some chs
       /\ (Dict.keys chs <> [] ->
           exists title text,
             random_phrase book_two_passages 1 2 = Ok (title, text)).
Proof.
  split; [|split].
  - apply (proj1 (random_phrase_preconditions [] 0 0)). reflexivity.
  - apply (proj1 (proj2 (random_phrase_preconditions [("Section One", [])] 0 0))
             "Section One"); reflexivity.
  - apply (proj2 (proj2 (random_phrase_preconditions book_two_passages 1 2))).
    discriminate.
Defined.

(** ** Header lines *)

Lemma startswith_app (p s : string) :
  PyStr.startswith s p = true <-> exists rest, s = (p ++ rest)%string.
Proof.
  unfold PyStr.startswith. revert s.
  induction p as [|c p IH]; intros s; simpl.
  - split; [intros _; now exists s | now destruct s].
  - destruct s as [|c' s]; [split; [discriminate | intros [r H]; discriminate]|].
    simpl. destruct (ascii_dec c c') as [->|Hne].
    + rewrite IH. split; intros [r H]; exists r; [now subst | now inversion H].
    + split; [discriminate | intros [r H]; inversion H; congruence].
Qed.

Lemma chapter_marker_not_section_marker (line : string) :
  PyStr.startswith line "### " = true -> PyStr.startswith line "## " = false.
Proof. intros H. apply startswith_app in H as [rest ->]. reflexivity. Qed.

Lemma header_name_section (rest : string) :
  header_name ("## " ++ rest) = PyStr.strip rest.
Proof. reflexivity. Qed.

Lemma header_name_chapter (rest : string) :
  header_name ("### " ++ rest) = PyStr.strip rest.
Proof. reflexivity. Qed.

Lemma truthy_opt_some (s : string) :
  s <> EmptyString -> PyStr.truthy_opt (Some s) = true.
Proof. destruct s; [contradiction | reflexivity]. Qed.

Lemma truthy_true (s : string) : PyStr.truthy s = true <-> s <> EmptyString.
Proof. destruct s; simpl; split; congruence. Qed.

Lemma mem_false_get {V : Type} (d : Dict.dict V) (k : string) :
  Dict.mem d k = false <-> Dict.get d k = None.
Proof. unfold Dict.mem. destruct (Dict.get d k); split; congruence. Qed.

Lemma step_chapter_header (st : state) (sec line : string) :
  section st = Some sec -> sec <> EmptyString ->
  PyStr.startswith line "### " = true ->
  step st line = chapter_header st line.
Proof.
  intros Hs Hne H. unfold step, dispatch.
  rewrite (chapter_marker_not_section_marker _ H), H, Hs.
  now rewrite (truthy_opt_some _ Hne).
Qed.




(** ** A chapter header and the passage buffer *)

Lemma step_blank_flush (st : state) (sec ch line : string)
      (chs : Dict.dict (list string)) (ps : list string) :
  is_blank line = true ->
  section st = Some sec -> sec <> EmptyString -> chapter st = Some ch -> ch <> EmptyString ->
  Dict.get (book st) sec = Some chs -> Dict.get chs ch = Some ps ->
  phrase st <> [] ->
  step st line =
  Ok {| book := Dict.set (book st) sec
                  (Dict.set chs ch (ps ++ [PyStr.join PyStr.nl (phrase st)]));
        section := Some sec; chapter := Some ch; phrase := [] |}.
Proof.
  unfold is_blank. intros H Hs Hsne Hc Hcne G1 G2 Hp.
  apply andb_prop in H as [H H3]. apply andb_prop in H as [Ht H2].
  apply negb_true_iff in Ht, H2, H3.
  unfold step, dispatch. rewrite H2, H3, Hs, Hc.
  rewrite (truthy_opt_some _ Hsne), (truthy_opt_some _ Hcne). simpl.
  unfold text_line. rewrite Ht, Hs, Hc. simpl. rewrite G1. simpl. rewrite G2.
  simpl. destruct (phrase st); [contradiction | reflexivity].
Qed.

(** C7. A chapter header met while lines are waiting in the passage buffer
    opens the new chapter with an empty list of passages, leaves the lists
    of the other chapters as they are and leaves the buffer as it is. The
    lines of content that follow are added after the waiting ones, and the
    next blank line records all of them, the waiting ones first, as the
    first passage of the new chapter. *)
Theorem chapter_header_keeps_buffer
        (st : state) (sec line : string) (chs : Dict.dict (list string)) :
  section st = Some sec -> sec <> EmptyString ->
  Dict.get (book st) sec = Some chs ->
  PyStr.startswith line "### " = true ->
  Dict.mem chs (header_name line) = false ->
  phrase st <> [] ->
  let name := header_name line in
  let st' := {| book := Dict.set (book st) sec (Dict.set chs name []);
                section := Some sec; chapter := Some name;
                phrase := phrase st |} in
  step st line = Ok st'
  /\ (forall c, c <> name ->
                Dict.get (Dict.set chs name []) c = Dict.get chs c)
  /\ (forall (cs : list string) (blank : string),
         name <> EmptyString ->
         Forall (fun l => is_content l = true) cs ->
         is_blank blank = true ->
         run st' (cs ++ [blank]) =
         Ok {| book := Dict.set (book st) sec
                         (Dict.set chs name
                            [PyStr.join PyStr.nl
                               (phrase st ++ map PyStr.strip cs)]);
               section := Some sec; chapter := Some name; phrase := [] |}).
Proof.
  intros Hs Hne G Hm Hmem Hp name st'. subst st' name. split; [|split].
  - rewrite (step_chapter_header st sec) by auto.
    unfold chapter_header. rewrite Hs. simpl. rewrite G. simpl.
    now rewrite Hmem.
  - intros c Hc. now apply get_set_other.
  - intros cs blank Hn Hcs Hb. rewrite run_snoc, (run_content _ _ Hcs).
    unfold in_chapter. cbn [section chapter book phrase].
    rewrite (truthy_opt_some _ Hne), (truthy_opt_some _ Hn).
    cbn [andb bind].
    rewrite (step_blank_flush _ sec (header_name line) blank
               (Dict.set chs (header_name line) []) []);
      cbn [section chapter book phrase app]; auto using get_set_same.
    + now rewrite !set_set.
    + destruct (phrase st); [contradiction | discriminate].
Qed.

Lemma chapter_header_keeps_buffer_witness :
  let st := {| book := [("Tao", [("1", [])])]; section := Some "Tao";
               chapter := Some "1"; phrase := ["Line A"; "Line B"] |} in
  let st' := {| book := [("Tao", [("1", []); ("2", [])])];
                section := Some "Tao"; chapter := Some "2";
                phrase := ["Line A"; "Line B"] |} in
  step st ("### 2" ++ PyStr.nl) = Ok st'
  /\ run st' [("Line C" ++ PyStr.nl)%string; PyStr.nl] =
     Ok {| book := [("Tao",
                     [("1", []);
                      ("2", [PyStr.join PyStr.nl ["Line A"; "Line B"; "Line C"]])])];
           section := Some "Tao"; chapter := Some "2"; phrase := [] |}.
Proof.
  intros st st'.
  assert (H := chapter_header_keeps_buffer st "Tao" ("### 2" ++ PyStr.nl)
                 [("1", [])] eq_refl ltac:(discriminate) eq_refl eq_refl eq_refl
                 ltac:(discriminate)).
  destruct H as (H1 & _ & H3). split; [exact H1|].
  apply (H3 [("Line C" ++ PyStr.nl)%string] PyStr.nl);
    [discriminate | repeat constructor | reflexivity].
Defined.

(** ** Trimming *)

Section StripFacts.
Variable p : ascii -> bool.

Lemma lstrip_starts_clean (s : string) :
  starts_clean p (PyStr.lstrip_by p s) = true.
Proof.
  induction s as [|c s IH]; simpl; [reflexivity|].
  destruct (p c) eqn:E; [assumption | simpl; now rewrite E].
Qed.

Lemma starts_clean_lstrip (s : string) :
  starts_clean p s = true -> PyStr.lstrip_by p s = s.
Proof.
  destruct s as [|c s]; simpl; [reflexivity|].
  now intros ->%negb_true_iff.
Qed.

Lemma rstrip_starts_clean (s : string) :
  starts_clean p s = true -> starts_clean p (PyStr.rstrip_by p s) = true.
Proof.
  destruct s as [|c s]; simpl; [reflexivity|]. intros H.
  destruct (PyStr.rstrip_by p s); [|exact H].
  apply negb_true_iff in H. rewrite H. simpl. now rewrite H.
Qed.

Lemma rstrip_idem (s : string) :
  PyStr.rstrip_by p (PyStr.rstrip_by p s) = PyStr.rstrip_by p s.
Proof.
  induction s as [|c s IH]; simpl; [reflexivity|].
  destruct (PyStr.rstrip_by p s) as [|c' r] eqn:E.
  - destruct (p c) eqn:Ec; simpl; [reflexivity | now rewrite Ec].
  - change (PyStr.rstrip_by p (String c (String c' r)))
      with (match PyStr.rstrip_by p (String c' r) with
            | EmptyString => if p c then EmptyString else String c EmptyString
            | String _ _ as r' => String c r'
            end).
    now rewrite IH.
Qed.

Lemma rstrip_app (a b : string) :
  PyStr.rstrip_by p b <> EmptyString ->
  PyStr.rstrip_by p (a ++ b) = (a ++ PyStr.rstrip_by p b)%string.
Proof.
  intros Hb. induction a as [|c a IH]; simpl; [reflexivity|].
  rewrite IH. destruct (a ++ PyStr.rstrip_by p b)%string eqn:E; [|reflexivity].
  destruct a; simpl in E; [contradiction | discriminate].
Qed.

Lemma starts_clean_app (a b : string) :
  a <> EmptyString -> starts_clean p a = true -> starts_clean p (a ++ b) = true.
Proof. destruct a; simpl; [contradiction | auto]. Qed.

End StripFacts.

Lemma trimmed_strip (line : string) :
  PyStr.strip line <> EmptyString -> trimmed (PyStr.strip line).
Proof.
  intros H. split; [exact H|]. unfold PyStr.strip. split.
  - apply rstrip_starts_clean, lstrip_starts_clean.
  - apply rstrip_idem.
Qed.

Lemma strip_trimmed (s : string) : trimmed s -> PyStr.strip s = s.
Proof.
  intros (_ & Hl & Hr). unfold PyStr.strip.
  now rewrite (starts_clean_lstrip _ _ Hl).
Qed.

Lemma trimmed_join (xs : list string) :
  xs <> [] -> Forall trimmed xs -> trimmed (PyStr.join PyStr.nl xs).
Proof.
  intros Hne H. induction H as [|x xs Hx Hxs IH]; [contradiction|].
  destruct xs as [|y xs]; [exact Hx|].
  assert (J : trimmed (PyStr.join PyStr.nl (y :: xs))) by (apply IH; discriminate).
  change (PyStr.join PyStr.nl (x :: y :: xs))
    with (x ++ PyStr.nl ++ PyStr.join PyStr.nl (y :: xs))%string.
  destruct Hx as (Hx0 & Hxl & _). destruct J as (J0 & _ & Jr).
  split; [|split].
  - destruct x; [contradiction | discriminate].
  - now apply starts_clean_app.
  - rewrite rstrip_app.
    + rewrite rstrip_app by now rewrite Jr. now rewrite Jr.
    + rewrite rstrip_app by now rewrite Jr. rewrite Jr. discriminate.
Qed.

(** ** The passages of the book *)

Section Passages.
Variable old : string -> Prop.
Variable lines : list string.

Lemma line_of_trimmed (x : string) : line_of lines x -> trimmed x.
Proof. intros (Hx & l & _ & ->). now apply trimmed_strip. Qed.

Lemma passage_of_trimmed (q : string) : passage_of lines q -> trimmed q.
Proof.
  intros (xs & Hne & Hxs & ->). apply trimmed_join; [exact Hne|].
  eapply Forall_impl; [|exact Hxs]. apply line_of_trimmed.
Qed.

Lemma passages_inv_init : passages_inv old lines init.
Proof. split; [constructor | intros ? ? ? ? ? []]. Qed.

Lemma passages_inv_step (st st' : state) (line : string) :
  In line lines -> passages_inv old lines st -> step st line = Ok st' ->
  passages_inv old lines st'.
Proof.
  intros Hin [Hph Hbk]. unfold step. destruct (dispatch st line).
  - unfold section_header.
    destruct (Dict.mem (book st) (header_name line)); simpl; [discriminate|].
    intros E; inversion E; subst st'. split; [constructor|]. simpl.
    intros sec chs ch ps q H1 H2 H3.
    apply in_set in H1 as [H1|[_ ->]]; [eauto | contradiction].
  - unfold chapter_header. intros E.
    apply bind_ok_inv in E as (chs & G & E).
    destruct (Dict.mem chs (header_name line)); simpl in E; [discriminate|].
    destruct (section st) as [sec0|] eqn:Hs; [|discriminate].
    inversion E; subst st'. split; [exact Hph|]. simpl.
    unfold subscript in G.
    destruct (Dict.get (book st) sec0) as [chs0|] eqn:G0; inversion G; subst chs0.
    intros sec chs' ch ps q H1 H2 H3.
    apply in_set in H1 as [H1|[-> ->]]; [eauto|].
    apply in_set in H2 as [H2|[_ ->]]; [|contradiction].
    apply get_in in G0. eauto.
  - unfold text_line.
    destruct (PyStr.truthy (PyStr.strip line)) eqn:Ht.
    + intros E; inversion E; subst st'. split; [|exact Hbk]. simpl.
      apply Forall_app. split; [exact Hph|]. constructor; [|constructor].
      split; [now apply truthy_true | eauto].
    + destruct (phrase st) as [|x xs] eqn:Ep;
        [intros E; inversion E; subst st'; split; [now rewrite Ep | exact Hbk]|].
      intros E. apply bind_ok_inv in E as (chs & G & E).
      apply bind_ok_inv in E as (ps & G' & E).
      destruct (section st) as [sec0|] eqn:Hs; [|discriminate].
      destruct (chapter st) as [ch0|] eqn:Hc; [|discriminate].
      inversion E; subst st'. split; [constructor|]. simpl.
      unfold subscript in G, G'.
      destruct (Dict.get (book st) sec0) as [chs0|] eqn:G0; inversion G; subst chs0.
      destruct (Dict.get chs ch0) as [ps0|] eqn:G1; inversion G'; subst ps0.
      apply get_in in G0, G1.
      intros sec chs' ch ps' q H1 H2 H3.
      apply in_set in H1 as [H1|[-> ->]]; [eauto|].
      apply in_set in H2 as [H2|[-> ->]]; [eauto|].
      apply in_app_or in H3 as [H3|[<-|[]]]; [eauto|].
      right. exists (x :: xs). split; [discriminate|]. now split.
  - intros E; inversion E; subst st'. now split.
Qed.

Lemma passages_inv_run (ls : list string) (st st' : state) :
  incl ls lines -> passages_inv old lines st -> run st ls = Ok st' ->
  passages_inv old lines st'.
Proof.
  revert st. induction ls as [|l ls IH]; intros st Hin Hinv; simpl.
  - intros E; inversion E; now subst.
  - intros E. apply bind_ok_inv in E as (st1 & E1 & E).
    apply (IH st1); [intros x Hx; apply Hin; now right | | exact E].
    apply (passages_inv_step st st1 l); auto. apply Hin. now left.
Qed.

End Passages.

(** C5. Every passage of the book returned is made of one or more lines of
    the input, each trimmed and not empty, joined by line ends; trimming
    the passage leaves it as it is, and it is not empty. *)
Theorem passages_not_blank
        (lines : list string) (b : BOOK_TYPE)
        (sec ch : string) (chs : Dict.dict (list string)) (ps : list string)
        (q : string) :
  parse_lines lines = Ok b ->
  In (sec, chs) b -> In (ch, ps) chs -> In q ps ->
  PyStr.truthy (PyStr.strip q) = true
  /\ PyStr.strip q = q
  /\ exists xs,
      xs <> [] /\ q = PyStr.join PyStr.nl xs
      /\ Forall (fun x => PyStr.truthy (PyStr.strip x) = true
                          /\ exists line, In line lines /\ x = PyStr.strip line)
                xs.
Proof.
  unfold parse_lines. intros E H1 H2 H3.
  apply bind_ok_inv in E as (st & E & Eb). inversion Eb; subst b.
  destruct (passages_inv_run (fun _ => False) lines lines init st
              (incl_refl _) (passages_inv_init _ lines) E) as [_ Hbk].
  destruct (Hbk _ _ _ _ _ H1 H2 H3) as [[]|Hq].
  pose proof (passage_of_trimmed _ _ Hq) as Ht.
  rewrite (strip_trimmed _ Ht). split; [|split; [reflexivity|]].
  - apply truthy_true. apply Ht.
  - destruct Hq as (xs & Hne & Hxs & ->). exists xs. repeat split; auto.
    eapply Forall_impl; [|exact Hxs]. intros x Hx.
    rewrite (strip_trimmed _ (line_of_trimmed _ _ Hx)).
    destruct Hx as [Hx Hl]. split; [now apply truthy_true | exact Hl].
Qed.

Lemma passages_not_blank_witness :
  let q := ("Line A" ++ PyStr.nl ++ "Line B")%string in
  PyStr.truthy (PyStr.strip q) = true
  /\ PyStr.strip q = q
  /\ exists xs,
      xs <> [] /\ q = PyStr.join PyStr.nl xs
      /\ Forall (fun x => PyStr.truthy (PyStr.strip x) = true
                          /\ exists line, In line (PyStr.readlines doc8_blank)
                                          /\ x = PyStr.strip line)
                xs.
Proof.
  intros q.
  apply (passages_not_blank (PyStr.readlines doc8_blank) book_two_passages
           "Section One" "1" [("1", [q; "Line C"])] [q; "Line C"] q);
    [reflexivity | now left | now left | now left].
Defined.

(** ** A section header and the passage buffer *)

(** C8. A section header whose name is not yet in the book adds the
    section, sets the current chapter to none and empties the passage
    buffer. What the loop does from there on does not depend on the buffer,
    the chapter or the section that were current before the header, and
    every passage of the book at the end was in the book before the header
    or is made of lines that come after it: no line that waited in the
    buffer reaches a passage recorded later. *)
Theorem section_header_resets (st : state) (line : string) :
  PyStr.startswith line "## " = true ->
  Dict.mem (book st) (header_name line) = false ->
  step st line =
  Ok {| book := Dict.set (book st) (header_name line) [];
        section := Some (header_name line); chapter := None; phrase := [] |}
  /\ (forall sec' ch' ph' rest,
         run {| book := book st; section := sec'; chapter := ch';
                phrase := ph' |}
             (line :: rest)
         = run st (line :: rest))
  /\ (forall rest st' q,
         run st (line :: rest) = Ok st' ->
         in_book (book st') q ->
         in_book (book st) q \/ passage_of rest q).
Proof.
  intros H Hm.
  assert (E1 : step st line =
               Ok {| book := Dict.set (book st) (header_name line) [];
                     section := Some (header_name line); chapter := None;
                     phrase := [] |}).
  { rewrite (step_section_header _ _ H). unfold section_header. now rewrite Hm. }
  split; [exact E1|]. split.
  - intros sec' ch' ph' rest. simpl. rewrite !(step_section_header _ _ H).
    reflexivity.
  - intros rest st' q E (sec & chs & ch & ps & H1 & H2 & H3).
    simpl in E. rewrite E1 in E. simpl in E.
    eapply (passages_inv_run (in_book (book st)) rest rest) in E;
      [| apply incl_refl |].
    + destruct E as [_ Hbk]. eauto.
    + split; [constructor|]. simpl. intros sec0 chs0 ch0 ps0 q0 I1 I2 I3.
      apply in_set in I1 as [I1|[_ ->]]; [|contradiction].
      left. exists sec0, chs0, ch0, ps0. auto.
Qed.

Lemma section_header_resets_witness :
  let st := {| book := [("Tao", [("1", [])])]; section := Some "Tao";
               chapter := Some "1"; phrase := ["Line A"] |} in
  let line := ("## Te" ++ PyStr.nl)%string in
  step st line =
  Ok {| book := Dict.set (book st) (header_name line) [];
        section := Some (header_name line); chapter := None; phrase := [] |}
  /\ (forall sec' ch' ph' rest,
         run {| book := book st; section := sec'; chapter := ch';
                phrase := ph' |}
             (line :: rest)
         = run st (line :: rest))
  /\ (forall rest st' q,
         run st (line :: rest) = Ok st' ->
         in_book (book st') q ->
         in_book (book st) q \/ passage_of rest q).
Proof.
  intros st line. apply (section_header_resets st line); reflexivity.
Defined.

(** ** Duplicate headers *)

Lemma get_mem {V : Type} (d : Dict.dict V) (k : string) (v : V) :
  Dict.get d k = Some v -> Dict.mem d k = true.
Proof. unfold Dict.mem. now intros ->. Qed.

Lemma keys_set_present {V : Type} (d : Dict.dict V) (k : string) (v v' : V) :
  Dict.get d k = Some v -> Dict.keys (Dict.set d k v') = Dict.keys d.
Proof. intros G. now rewrite keys_set, (get_mem _ _ _ G). Qed.

Lemma keys_set_absent {V : Type} (d : Dict.dict V) (k : string) (v : V) :
  Dict.mem d k = false -> Dict.keys (Dict.set d k v) = Dict.keys d ++ [k].
Proof. intros M. now rewrite keys_set, M. Qed.

(** What one turn of the loop does to the keys of the book and of the
    current section, and how it can fail. *)
Lemma step_outline (st : state) (l : string) :
  keys_present st ->
  match step st l with
  | Ok st1 =>
      keys_present st1
      /\ if PyStr.startswith l "## " then
           Dict.mem (book st) (header_name l) = false
           /\ Dict.keys (book st1) = Dict.keys (book st) ++ [header_name l]
           /\ section st1 = Some (header_name l)
           /\ Dict.get (book st1) (header_name l) = Some []
         else
           section st1 = section st
           /\ Dict.keys (book st1) = Dict.keys (book st)
           /\ forall sec chs,
               section st = Some sec -> Dict.get (book st) sec = Some chs ->
               exists chs1,
                 Dict.get (book st1) sec = Some chs1
                 /\ if PyStr.truthy sec && PyStr.startswith l "### " then
                      Dict.mem chs (header_name l) = false
                      /\ Dict.keys chs1 = Dict.keys chs ++ [header_name l]
                    else Dict.keys chs1 = Dict.keys chs
  | Raise e =>
      (PyStr.startswith l "## " = true
       /\ Dict.mem (book st) (header_name l) = true
       /\ e = DuplicateSectionError (header_name l))
      \/ (PyStr.startswith l "## " = false
          /\ PyStr.startswith l "### " = true
          /\ exists sec chs,
              section st = Some sec /\ PyStr.truthy sec = true
              /\ Dict.get (book st) sec = Some chs
              /\ Dict.mem chs (header_name l) = true
              /\ e = DuplicateChapterError (header_name l))
  end.
Proof.
  intros Hk. unfold step, dispatch.
  destruct (PyStr.startswith l "## ") eqn:H1.
  { unfold section_header.
    destruct (Dict.mem (book st) (header_name l)) eqn:M; simpl; [now left|].
    split; [|repeat split; auto using keys_set_absent, get_set_same].
    unfold keys_present. simpl. rewrite get_set_same. eauto. }
  destruct (PyStr.truthy_opt (section st) && PyStr.startswith l "### ") eqn:H2.
  { apply andb_prop in H2 as [Hs H2].
    unfold keys_present in Hk.
    destruct (section st) as [sec|] eqn:Es; [|discriminate].
    destruct Hk as (chs & G & _). simpl in Hs.
    unfold chapter_header. rewrite Es. simpl. rewrite G. simpl.
    destruct (Dict.mem chs (header_name l)) eqn:M; simpl.
    - right. repeat split; auto. exists sec, chs. auto.
    - split.
      + unfold keys_present. simpl. rewrite get_set_same.
        eexists. split; [reflexivity|]. rewrite get_set_same. eauto.
      + split; [reflexivity|]. split; [now apply (keys_set_present _ _ chs)|].
        intros sec' chs' E G'. inversion E; subst sec'.
        rewrite G in G'; inversion G'; subst chs'.
        rewrite get_set_same. eexists. split; [reflexivity|].
        rewrite Hs, H2. simpl. auto using keys_set_absent. }
  assert (Hif : forall sec, section st = Some sec ->
                  PyStr.truthy sec && PyStr.startswith l "### " = false).
  { intros sec E. now rewrite E in H2. }
  destruct (PyStr.truthy_opt (section st) && PyStr.truthy_opt (chapter st))
    eqn:H3.
  - unfold text_line. destruct (PyStr.truthy (PyStr.strip l)).
    { split; [exact Hk|]. repeat split; auto.
      intros sec chs E G. exists chs. simpl. rewrite (Hif _ E). auto. }
    destruct (phrase st) as [|x xs] eqn:Ep.
    { split; [exact Hk|]. repeat split; auto.
      intros sec chs E G. exists chs. simpl. rewrite (Hif _ E). auto. }
    apply andb_prop in H3 as [Hs Hc]. unfold keys_present in Hk.
    destruct (section st) as [sec|] eqn:Es; [|discriminate].
    destruct (chapter st) as [ch|] eqn:Ec; [|discriminate].
    destruct Hk as (chs & G & ps & G'). simpl. rewrite G. simpl. rewrite G'.
    simpl. split.
    + unfold keys_present. simpl. rewrite get_set_same.
      eexists. split; [reflexivity|]. rewrite get_set_same. eauto.
    + split; [reflexivity|]. split; [now apply (keys_set_present _ _ chs)|].
      intros sec' chs' E G0. inversion E; subst sec'.
      rewrite G in G0; inversion G0; subst chs'.
      rewrite get_set_same. eexists. split; [reflexivity|].
      rewrite (Hif _ eq_refl). now apply (keys_set_present _ _ ps).
  - split; [exact Hk|]. repeat split; auto.
    intros sec chs E G. exists chs. simpl. rewrite (Hif _ E). auto.
Qed.

Lemma section_names_cons (l : string) (ls : list string) :
  section_names (l :: ls)
  = if PyStr.startswith l "## " then header_name l :: section_names ls
    else section_names ls.
Proof.
  unfold section_names. simpl. now destruct (PyStr.startswith l "## ").
Qed.

Lemma chapter_names_cons (l : string) (ls : list string) :
  chapter_names (l :: ls)
  = if PyStr.startswith l "### " then header_name l :: chapter_names ls
    else chapter_names ls.
Proof.
  unfold chapter_names. simpl. now destruct (PyStr.startswith l "### ").
Qed.

Lemma NoDup_snoc {A : Type} (l : list A) (x : A) :
  NoDup l -> ~ In x l -> NoDup (l ++ [x]).
Proof.
  intros Hl Hx. apply NoDup_rev in Hl. rewrite <- (rev_involutive (l ++ [x])).
  apply NoDup_rev. rewrite rev_app_distr. simpl. constructor; [|exact Hl].
  now rewrite <- in_rev.
Qed.

Lemma mem_false_not_in {V : Type} (d : Dict.dict V) (k : string) :
  Dict.mem d k = false -> ~ In k (Dict.keys d).
Proof. intros M H. apply mem_keys in H. congruence. Qed.

Lemma keys_present_init : keys_present init.
Proof. exact I. Qed.

(** The keys of the book are the section names met, without repetition. *)
Lemma run_sections (ls : list string) (st0 st : state) :
  keys_present st0 -> NoDup (Dict.keys (book st0)) ->
  run st0 ls = Ok st ->
  keys_present st
  /\ Dict.keys (book st) = Dict.keys (book st0) ++ section_names ls
  /\ NoDup (Dict.keys (book st)).
Proof.
  revert st0. induction ls as [|l ls IH]; intros st0 Hk Hnd; simpl.
  - intros E; inversion E; subst st. now rewrite app_nil_r.
  - intros E. apply bind_ok_inv in E as (st1 & E1 & E).
    pose proof (step_outline st0 l Hk) as S. rewrite E1 in S.
    destruct S as [Hk1 S]. rewrite section_names_cons.
    destruct (PyStr.startswith l "## ").
    + destruct S as (M & K & _).
      assert (Hnd1 : NoDup (Dict.keys (book st1))).
      { rewrite K. apply NoDup_snoc; auto using mem_false_not_in. }
      destruct (IH st1 Hk1 Hnd1 E) as (Hks & Ke & Hn).
      repeat split; auto. rewrite Ke, K, <- app_assoc. reflexivity.
    + destruct S as (_ & K & _). rewrite <- K in *.
      apply (IH st1); auto.
Qed.

(** Between two section headers the keys of the current section are the
    chapter names met, without repetition. *)
Lemma run_chapters (body : list string) (st0 st : state) (sec : string)
      (chs0 : Dict.dict (list string)) :
  keys_present st0 ->
  section st0 = Some sec -> PyStr.truthy sec = true ->
  Dict.get (book st0) sec = Some chs0 -> NoDup (Dict.keys chs0) ->
  no_section_header body ->
  run st0 body = Ok st ->
  keys_present st /\ section st = Some sec
  /\ exists chs,
      Dict.get (book st) sec = Some chs
      /\ Dict.keys chs = Dict.keys chs0 ++ chapter_names body
      /\ NoDup (Dict.keys chs).
Proof.
  intros Hk Es Ts G Hnd Hb. revert st0 chs0 Hk Es G Hnd.
  induction Hb as [|l body Hl _ IH]; intros st0 chs0 Hk Es G Hnd; simpl.
  - intros E; inversion E; subst st. repeat split; auto.
    exists chs0. now rewrite app_nil_r.
  - intros E. apply bind_ok_inv in E as (st1 & E1 & E).
    pose proof (step_outline st0 l Hk) as S. rewrite E1, Hl in S.
    destruct S as (Hk1 & Es1 & _ & F).
    destruct (F sec chs0 Es G) as (chs1 & G1 & K). rewrite Ts in K. simpl in K.
    rewrite Es in Es1. rewrite chapter_names_cons.
    destruct (PyStr.startswith l "### ").
    + destruct K as [M K].
      assert (Hnd1 : NoDup (Dict.keys chs1)).
      { rewrite K. apply NoDup_snoc; auto using mem_false_not_in. }
      destruct (IH st1 chs1 Hk1 Es1 G1 Hnd1 E) as (Hks & Ese & chs & Ge & Ke & Hn).
      repeat split; auto. exists chs. repeat split; auto.
      rewrite Ke, K, <- app_assoc. reflexivity.
    + rewrite <- K in *. apply (IH st1 chs1); auto.
Qed.

(** Without duplicates the loop goes through. *)
Lemma run_total (ls : list string) (st : state) :
  keys_present st ->
  NoDup (Dict.keys (book st) ++ section_names ls) ->
  (forall sec chs body rest,
      section st = Some sec -> Dict.get (book st) sec = Some chs ->
      ls = body ++ rest -> no_section_header body ->
      NoDup (Dict.keys chs ++ chapter_names body)) ->
  (forall pre h1 body rest,
      ls = pre ++ h1 :: body ++ rest -> PyStr.startswith h1 "## " = true ->
      no_section_header body -> NoDup (chapter_names body)) ->
  exists st', run st ls = Ok st'.
Proof.
  revert st. induction ls as [|l ls IH]; intros st Hk Hnd H3 H4; simpl.
  { eexists; reflexivity. }
  pose proof (step_outline st l Hk) as S.
  rewrite section_names_cons in Hnd.
  destruct (step st l) as [st1|e]; simpl.
  - destruct S as [Hk1 S]. apply IH; auto.
    + destruct (PyStr.startswith l "## ").
      * destruct S as (_ & K & _). now rewrite K, <- app_assoc.
      * destruct S as (_ & K & _). now rewrite K.
    + intros sec chs body rest Es1 G1 -> Hb.
      destruct (PyStr.startswith l "## ") eqn:H1.
      * destruct S as (_ & _ & Es & G). rewrite Es in Es1.
        inversion Es1; subst sec. rewrite G in G1. inversion G1; subst chs.
        apply (H4 [] l body rest); auto.
      * destruct S as (Es & _ & F). rewrite Es in Es1.
        unfold keys_present in Hk. rewrite Es1 in Hk.
        destruct Hk as (chs0 & G0 & _).
        destruct (F sec chs0 Es1 G0) as (chs1 & G1' & K).
        rewrite G1' in G1. inversion G1; subst chs1.
        assert (Hb' : no_section_header (l :: body)) by now constructor.
        pose proof (H3 sec chs0 (l :: body) rest Es1 G0 eq_refl Hb') as N.
        rewrite chapter_names_cons in N.
        destruct (PyStr.startswith l "### ").
        -- destruct (PyStr.truthy sec); simpl in K.
           ++ destruct K as [_ K]. now rewrite K, <- app_assoc.
           ++ rewrite K. now apply NoDup_remove_1 in N.
        -- rewrite andb_false_r in K. now rewrite K.
    + intros pre h1 body rest -> Hh Hb.
      apply (H4 (l :: pre) h1 body rest); auto.
  - exfalso. destruct S as [(H1 & M & _) | (_ & H2 & sec & chs & Es & _ & G & M & _)].
    + rewrite H1 in Hnd. apply NoDup_remove_2 in Hnd. apply Hnd.
      apply in_or_app. left. now apply mem_keys.
    + assert (Hb : no_section_header []) by constructor.
      pose proof (H3 sec chs [l] ls Es G eq_refl) as N.
      rewrite chapter_names_cons, H2 in N.
      assert (Hl : no_section_header [l]).
      { constructor; [now apply chapter_marker_not_section_marker | constructor]. }
      specialize (N Hl). apply NoDup_remove_2 in N. apply N.
      rewrite app_nil_r. now apply mem_keys.
Qed.

(** The loop fails on duplicates only: its subscripts always find their
    keys. *)
Lemma run_failures (ls : list string) (st : state) (e : exn) :
  keys_present st -> run st ls = Raise e ->
  (exists name, e = DuplicateSectionError name)
  \/ (exists name, e = DuplicateChapterError name).
Proof.
  revert st. induction ls as [|l ls IH]; intros st Hk; simpl; [discriminate|].
  pose proof (step_outline st l Hk) as S.
  destruct (step st l) as [st1|e1]; simpl.
  - apply IH, S.
  - intros E; inversion E; subst e1.
    destruct S as [(_ & _ & ->) | (_ & _ & sec & chs & _ & _ & _ & _ & ->)]; eauto.
Qed.

Lemma chapter_names_app (l1 l2 : list string) :
  chapter_names (l1 ++ l2) = chapter_names l1 ++ chapter_names l2.
Proof. unfold chapter_names. now rewrite filter_app, map_app. Qed.

Lemma chapter_names_part (ls : list string) :
  NoDup (chapter_names ls) ->
  forall pre (h1 : string) body rest,
    ls = pre ++ h1 :: body ++ rest -> NoDup (chapter_names body).
Proof.
  intros H pre h1 body rest ->.
  change (pre ++ h1 :: body ++ rest) with (pre ++ [h1] ++ body ++ rest) in H.
  rewrite !chapter_names_app in H.
  now apply NoDup_app_remove_l, NoDup_app_remove_l, NoDup_app_remove_r in H.
Qed.

(** C3, as the code has it. The parser stops at the first duplicate. If the
    lines before a section header are parsed and its name is the name of
    an earlier section header, the failure is the duplicate-section one. If
    the lines up to a line starting with ["### "] are parsed, the line is
    in a section with a name, and its name is the name of an earlier such
    line of the same section, the failure is the duplicate-chapter one. A
    document with no name twice among its section headers and no name
    twice among the chapter headers of any one section is parsed; and a
    document that is parsed has no section name twice, and no chapter name
    twice in a section with a name. *)
Theorem duplicate_headers :
  (forall pre h rest st,
      run init pre = Ok st ->
      PyStr.startswith h "## " = true ->
      In (header_name h) (section_names pre) ->
      parse_lines (pre ++ h :: rest)
      = Raise (DuplicateSectionError (header_name h)))
  /\ (forall pre h1 body h rest st,
         run init (pre ++ h1 :: body) = Ok st ->
         PyStr.startswith h1 "## " = true -> header_name h1 <> EmptyString ->
         no_section_header body ->
         PyStr.startswith h "### " = true ->
         In (header_name h) (chapter_names body) ->
         parse_lines (pre ++ h1 :: body ++ h :: rest)
         = Raise (DuplicateChapterError (header_name h)))
  /\ (forall ls,
         NoDup (section_names ls) ->
         (forall pre h1 body rest,
             ls = pre ++ h1 :: body ++ rest ->
             PyStr.startswith h1 "## " = true ->
             no_section_header body -> NoDup (chapter_names body)) ->
         exists b, parse_lines ls = Ok b)
  /\ (forall ls b,
         parse_lines ls = Ok b ->
         Dict.keys b = section_names ls /\ NoDup (section_names ls)
         /\ forall pre h1 body rest,
             ls = pre ++ h1 :: body ++ rest ->
             PyStr.startswith h1 "## " = true -> header_name h1 <> EmptyString ->
             no_section_header body -> NoDup (chapter_names body)).
Proof.
  assert (Hrun : forall pre h1 body st,
             run init (pre ++ h1 :: body) = Ok st ->
             PyStr.startswith h1 "## " = true -> header_name h1 <> EmptyString ->
             no_section_header body ->
             section st = Some (header_name h1)
             /\ exists chs,
                 Dict.get (book st) (header_name h1) = Some chs
                 /\ Dict.keys chs = chapter_names body
                 /\ NoDup (Dict.keys chs)).
  { intros pre h1 body st E Hh Hne Hb. rewrite run_app in E.
    apply bind_ok_inv in E as (s0 & E0 & E). simpl in E.
    apply bind_ok_inv in E as (s1 & E1 & E).
    destruct (run_sections pre init s0 keys_present_init (NoDup_nil _) E0)
      as (Hk0 & _).
    pose proof (step_outline s0 h1 Hk0) as S. rewrite E1, Hh in S.
    destruct S as (Hk1 & _ & _ & Es & G).
    apply truthy_true in Hne.
    destruct (run_chapters body s1 st _ [] Hk1 Es Hne G (NoDup_nil _) Hb E)
      as (_ & Ese & chs & Ge & Ke & Hn).
    split; [exact Ese|]. exists chs. auto. }
  split; [|split; [|split]].
  - intros pre h rest st E Hh Hin. unfold parse_lines.
    rewrite run_app, E. simpl. rewrite (step_section_header _ _ Hh).
    destruct (run_sections pre init st keys_present_init (NoDup_nil _) E)
      as (_ & K & _). simpl in K. rewrite <- K in Hin.
    apply mem_keys in Hin. unfold section_header. now rewrite Hin.
  - intros pre h1 body h rest st E Hh1 Hne Hb Hh Hin. unfold parse_lines.
    destruct (Hrun pre h1 body st E Hh1 Hne Hb) as (Es & chs & G & K & _).
    replace (pre ++ h1 :: body ++ h :: rest)
      with ((pre ++ h1 :: body) ++ h :: rest) by now rewrite <- app_assoc.
    rewrite run_app, E. simpl.
    rewrite (step_chapter_header st _ h Es Hne Hh).
    unfold chapter_header. rewrite Es. simpl. rewrite G. simpl.
    rewrite <- K in Hin. apply mem_keys in Hin. now rewrite Hin.
  - intros ls Hnd Hch. unfold parse_lines.
    destruct (run_total ls init keys_present_init) as [st E]; auto.
    + intros sec chs body rest Es. discriminate.
    + rewrite E. simpl. eauto.
  - intros ls b E. unfold parse_lines in E.
    apply bind_ok_inv in E as (st & E & Eb). inversion Eb; subst b.
    destruct (run_sections ls init st keys_present_init (NoDup_nil _) E)
      as (_ & K & Hn). simpl in K. rewrite K in Hn.
    split; [exact K|]. split; [exact Hn|].
    intros pre h1 body rest -> Hh Hne Hb.
    replace (pre ++ h1 :: body ++ rest)
      with ((pre ++ h1 :: body) ++ rest) in E by now rewrite <- app_assoc.
    rewrite run_app in E. apply bind_ok_inv in E as (s2 & E2 & _).
    destruct (Hrun pre h1 body s2 E2 Hh Hne Hb) as (_ & chs & _ & K' & Hn').
    now rewrite K' in Hn'.
Qed.

Lemma duplicate_headers_witness :
  parse_lines (PyStr.readlines (doc_lines ["## A"; "### 1"; "## B"; "## A"]))
  = Raise (DuplicateSectionError "A")
  /\ parse_lines (PyStr.readlines
                    (doc_lines ["## A"; "### 1"; "Line A"; "### 1"; "## B"]))
     = Raise (DuplicateChapterError "1")
  /\ (exists b, parse_lines (PyStr.readlines doc8_blank) = Ok b)
  /\ Dict.keys book_two_passages = section_names (PyStr.readlines doc8_blank).
Proof.
  destruct duplicate_headers as (D1 & D2 & D3 & D4).
  split; [|split; [|split]].
  - apply (D1 (PyStr.readlines (doc_lines ["## A"; "### 1"; "## B"]))
              ("## A" ++ PyStr.nl)%string [] _ eq_refl eq_refl).
    simpl. auto.
  - apply (D2 [] ("## A" ++ PyStr.nl)%string
              (PyStr.readlines (doc_lines ["### 1"; "Line A"]))
              ("### 1" ++ PyStr.nl)%string
              [("## B" ++ PyStr.nl)%string] _ eq_refl eq_refl).
    + discriminate.
    + repeat constructor.
    + reflexivity.
    + simpl. auto.
  - apply D3.
    + vm_compute. repeat constructor. simpl. tauto.
    + intros pre h1 body rest E _ _.
      apply (chapter_names_part (PyStr.readlines doc8_blank)) with pre h1 rest;
        [|exact E].
      vm_compute. repeat constructor. simpl. tauto.
  - apply (D4 (PyStr.readlines doc8_blank) book_two_passages). reflexivity.
Defined.

(** C3 as stated fails: a document with the same section header twice and,
    between the two, the same chapter header twice stops at the chapter. *)
Lemma duplicate_section_after_duplicate_chapter_counterexample :
  section_names (PyStr.readlines doc_two_duplicates) = ["A"; "A"]
  /\ forall name,
      parse_book doc_two_duplicates <> Raise (DuplicateSectionError name).
Proof. split; [reflexivity | intros name; vm_compute; discriminate]. Qed.

(** Under a section header with an empty name the lines that start with
    ["### "] are not handled as chapter headers: [section] is the empty
    string, which the guard [section and ...] takes for false. *)
Example empty_section_name_chapters_skipped :
  parse_book doc_empty_section = Ok [(EmptyString, [])].
Proof. reflexivity. Qed.

(** * Further properties of the parser *)

(** ** How the parser fails *)

Lemma run_failure_names (ls : list string) (st : state) (e : exn) :
  keys_present st -> run st ls = Raise e ->
  (exists name, e = DuplicateSectionError name /\ In name (section_names ls))
  \/ (exists name, e = DuplicateChapterError name
                   /\ In name (chapter_names ls)).
Proof.
  revert st. induction ls as [|l ls IH]; intros st Hk; simpl; [discriminate|].
  pose proof (step_outline st l Hk) as S.
  rewrite section_names_cons, chapter_names_cons.
  destruct (step st l) as [st1|e1]; simpl.
  - intros E. destruct (IH st1 (proj1 S) E) as [(n & -> & Hn)|(n & -> & Hn)].
    + left. exists n. split; [reflexivity|].
      destruct (PyStr.startswith l "## "); [now right | exact Hn].
    + right. exists n. split; [reflexivity|].
      destruct (PyStr.startswith l "### "); [now right | exact Hn].
  - intros E; inversion E; subst e1.
    destruct S as [(H1 & _ & ->) | (_ & H2 & sec & chs & _ & _ & _ & _ & ->)].
    + left. eexists. split; [reflexivity|]. rewrite H1. now left.
    + right. eexists. split; [reflexivity|]. rewrite H2. now left.
Qed.

(** X1. The parser fails in two ways only, on a section name that a
    section header of the document gives and on a chapter name that a
    chapter line of the document gives: its subscripts [book[section]] and
    [book[section][chapter]] never miss their key. *)
Theorem parse_fails_on_header_names_only (ls : list string) (e : exn) :
  parse_lines ls = Raise e ->
  (exists name, e = DuplicateSectionError name /\ In name (section_names ls))
  \/ (exists name, e = DuplicateChapterError name
                   /\ In name (chapter_names ls)).
Proof.
  unfold parse_lines. intros E.
  destruct (run init ls) as [st|e0] eqn:R; simpl in E; [discriminate|].
  inversion E; subst e0.
  exact (run_failure_names ls init e keys_present_init R).
Qed.

Lemma parse_fails_on_header_names_only_witness :
  (exists name,
      DuplicateChapterError "1" = DuplicateSectionError name
      /\ In name (section_names (PyStr.readlines doc_two_duplicates)))
  \/ (exists name,
         DuplicateChapterError "1" = DuplicateChapterError name
         /\ In name (chapter_names (PyStr.readlines doc_two_duplicates))).
Proof.
  apply (parse_fails_on_header_names_only
           (PyStr.readlines doc_two_duplicates) (DuplicateChapterError "1")).
  reflexivity.
Defined.

(** ** The book is a dictionary of dictionaries *)

Lemma set_keys_distinct {V : Type} (d : Dict.dict V) (k : string) (v : V) :
  NoDup (Dict.keys d) -> NoDup (Dict.keys (Dict.set d k v)).
Proof.
  intros H. rewrite keys_set. destruct (Dict.mem d k) eqn:M; [exact H|].
  apply NoDup_snoc; auto using mem_false_not_in.
Qed.

Lemma book_keys_distinct_set (b : BOOK_TYPE) (sec : string)
      (chs : Dict.dict (list string)) :
  book_keys_distinct b -> NoDup (Dict.keys chs) ->
  book_keys_distinct (Dict.set b sec chs).
Proof.
  intros [Hb Hc] Hn. split; [now apply set_keys_distinct|].
  intros sec' chs' H. apply in_set in H as [H|[_ ->]]; eauto.
Qed.

Lemma step_keys_distinct (st st' : state) (line : string) :
  book_keys_distinct (book st) -> step st line = Ok st' ->
  book_keys_distinct (book st').
Proof.
  intros Hb. unfold step. destruct (dispatch st line).
  - unfold section_header.
    destruct (Dict.mem (book st) (header_name line)); simpl; [discriminate|].
    intros E; inversion E; subst st'; simpl.
    apply book_keys_distinct_set; [exact Hb | constructor].
  - unfold chapter_header. intros E.
    apply bind_ok_inv in E as (chs & G & E).
    destruct (Dict.mem chs (header_name line)); simpl in E; [discriminate|].
    destruct (section st) as [sec|]; [|discriminate].
    inversion E; subst st'; simpl. unfold subscript in G.
    destruct (Dict.get (book st) sec) as [chs0|] eqn:G0; inversion G; subst chs0.
    apply book_keys_distinct_set; [exact Hb|].
    apply set_keys_distinct. apply (proj2 Hb sec). now apply get_in.
  - unfold text_line. destruct (PyStr.truthy (PyStr.strip line)).
    { intros E; inversion E; now subst st'. }
    destruct (phrase st); [intros E; inversion E; now subst st'|].
    intros E. apply bind_ok_inv in E as (chs & G & E).
    apply bind_ok_inv in E as (ps & G' & E).
    destruct (section st) as [sec|]; [|discriminate].
    destruct (chapter st) as [ch|]; [|discriminate].
    inversion E; subst st'; simpl. unfold subscript in G.
    destruct (Dict.get (book st) sec) as [chs0|] eqn:G0; inversion G; subst chs0.
    apply book_keys_distinct_set; [exact Hb|].
    apply set_keys_distinct. apply (proj2 Hb sec). now apply get_in.
  - intros E; inversion E; now subst st'.
Qed.

Lemma run_keys_distinct (ls : list string) (st st' : state) :
  book_keys_distinct (book st) -> run st ls = Ok st' ->
  book_keys_distinct (book st').
Proof.
  revert st. induction ls as [|l ls IH]; intros st Hb; simpl.
  - intros E; inversion E; now subst st'.
  - intros E. apply bind_ok_inv in E as (st1 & E1 & E).
    apply (IH st1); [|exact E]. now apply (step_keys_distinct st st1 l).
Qed.

(** X2. In the book returned no section name is a key twice and, in each
    section, no chapter name is a key twice. *)
Theorem parsed_book_keys_distinct (ls : list string) (b : BOOK_TYPE) :
  parse_lines ls = Ok b ->
  NoDup (Dict.keys b)
  /\ forall sec chs, In (sec, chs) b -> NoDup (Dict.keys chs).
Proof.
  unfold parse_lines. intros E. apply bind_ok_inv in E as (st & E & Eb).
  inversion Eb; subst b. apply (run_keys_distinct ls init st); [|exact E].
  split; [constructor | intros ? ? []].
Qed.

Lemma parsed_book_keys_distinct_witness :
  NoDup (Dict.keys book_two_passages)
  /\ forall sec chs, In (sec, chs) book_two_passages -> NoDup (Dict.keys chs).
Proof.
  apply (parsed_book_keys_distinct (PyStr.readlines doc8_blank)). reflexivity.
Defined.

(** ** What is recorded stays *)

Lemma extends_refl (b : BOOK_TYPE) : extends b b.
Proof.
  intros sec chs ch ps G1 G2. exists chs, []. now rewrite app_nil_r.
Qed.

Lemma extends_trans (b1 b2 b3 : BOOK_TYPE) :
  extends b1 b2 -> extends b2 b3 -> extends b1 b3.
Proof.
  intros H12 H23 sec chs ch ps G1 G2.
  destruct (H12 _ _ _ _ G1 G2) as (chs2 & m2 & G3 & G4).
  destruct (H23 _ _ _ _ G3 G4) as (chs3 & m3 & G5 & G6).
  exists chs3, (m2 ++ m3). now rewrite app_assoc.
Qed.

Lemma extends_set (b : BOOK_TYPE) (sec0 : string)
      (chs0 chs1 : Dict.dict (list string)) :
  Dict.get b sec0 = Some chs0 ->
  (forall ch ps, Dict.get chs0 ch = Some ps ->
                 exists more, Dict.get chs1 ch = Some (ps ++ more)) ->
  extends b (Dict.set b sec0 chs1).
Proof.
  intros G0 H sec chs ch ps G1 G2.
  destruct (String.eqb_spec sec sec0) as [->|Hne].
  - rewrite G0 in G1. inversion G1; subst chs0.
    destruct (H _ _ G2) as [more Hm]. exists chs1, more.
    now rewrite get_set_same.
  - exists chs, []. rewrite get_set_other by exact Hne.
    now rewrite app_nil_r.
Qed.

Lemma step_extends (st st' : state) (line : string) :
  step st line = Ok st' -> extends (book st) (book st').
Proof.
  unfold step. destruct (dispatch st line).
  - unfold section_header.
    destruct (Dict.mem (book st) (header_name line)) eqn:M; simpl;
      [discriminate|].
    intros E; inversion E; subst st'; simpl.
    intros sec chs ch ps G1 G2. exists chs, []. rewrite app_nil_r.
    split; [|exact G2]. rewrite get_set_other; [exact G1|].
    intros ->. apply get_mem in G1. congruence.
  - unfold chapter_header. intros E.
    apply bind_ok_inv in E as (chs & G & E).
    destruct (Dict.mem chs (header_name line)) eqn:M; simpl in E;
      [discriminate|].
    destruct (section st) as [sec|]; [|discriminate].
    inversion E; subst st'; simpl. unfold subscript in G.
    destruct (Dict.get (book st) sec) as [chs0|] eqn:G0; inversion G; subst chs0.
    apply (extends_set _ _ chs); [exact G0|].
    intros ch ps G2. exists []. rewrite app_nil_r.
    rewrite get_set_other; [exact G2|].
    intros ->. apply get_mem in G2. congruence.
  - unfold text_line. destruct (PyStr.truthy (PyStr.strip line)).
    { intros E; inversion E; subst st'. apply extends_refl. }
    destruct (phrase st) as [|x xs];
      [intros E; inversion E; subst st'; apply extends_refl|].
    intros E. apply bind_ok_inv in E as (chs & G & E).
    apply bind_ok_inv in E as (ps & G' & E).
    destruct (section st) as [sec|]; [|discriminate].
    destruct (chapter st) as [ch|]; [|discriminate].
    inversion E; subst st'; simpl. unfold subscript in G, G'.
    destruct (Dict.get (book st) sec) as [chs0|] eqn:G0; inversion G; subst chs0.
    destruct (Dict.get chs ch) as [ps0|] eqn:G1; inversion G'; subst ps0.
    apply (extends_set _ _ chs); [exact G0|].
    intros ch' ps' G2. destruct (String.eqb_spec ch' ch) as [->|Hne].
    + rewrite G1 in G2. inversion G2; subst ps'.
      eexists. now rewrite get_set_same.
    + exists []. rewrite app_nil_r. now rewrite get_set_other.
  - intros E; inversion E; subst st'. apply extends_refl.
Qed.

Lemma run_extends (ls : list string) (st st' : state) :
  run st ls = Ok st' -> extends (book st) (book st').
Proof.
  revert st. induction ls as [|l ls IH]; intros st; simpl.
  - intros E; inversion E; subst st'. apply extends_refl.
  - intros E. apply bind_ok_inv in E as (st1 & E1 & E).
    apply (extends_trans _ (book st1)); [now apply (step_extends st st1 l)|].
    now apply IH.
Qed.

(** X3. Lines added at the end of a document take nothing away: every
    chapter of the book of the document is a chapter of the book of the
    longer document, in the same section, and its passages come first
    there, unchanged and in the same order. *)
Theorem longer_document_extends_book (pre post : list string)
        (b b' : BOOK_TYPE) :
  parse_lines pre = Ok b -> parse_lines (pre ++ post) = Ok b' ->
  forall sec chs ch ps,
    Dict.get b sec = Some chs -> Dict.get chs ch = Some ps ->
    exists chs' more,
      Dict.get b' sec = Some chs' /\ Dict.get chs' ch = Some (ps ++ more).
Proof.
  unfold parse_lines. intros E E'.
  apply bind_ok_inv in E as (st & E & Eb). inversion Eb; subst b.
  apply bind_ok_inv in E' as (st' & E' & Eb'). inversion Eb'; subst b'.
  rewrite run_app, E in E'. simpl in E'. exact (run_extends post st st' E').
Qed.

Lemma longer_document_extends_book_witness :
  exists chs' more,
    Dict.get book_two_passages "Section One" = Some chs'
    /\ Dict.get chs' "1"
       = Some ([("Line A" ++ PyStr.nl ++ "Line B")%string] ++ more).
Proof.
  apply (longer_document_extends_book
           (PyStr.readlines (doc8 ++ PyStr.nl)) [PyStr.nl]
           book_one_passage book_two_passages eq_refl eq_refl
           "Section One" [("1", [("Line A" ++ PyStr.nl ++ "Line B")%string])] "1");
    reflexivity.
Defined.

(** ** Headers with an empty name *)

Lemma step_skip_empty_section (st : state) (line : string) :
  PyStr.truthy_opt (section st) = false ->
  PyStr.startswith line "## " = false ->
  step st line = Ok st.
Proof. unfold step, dispatch. now intros -> ->. Qed.

Lemma run_skip_empty_section (st : state) (ls : list string) :
  PyStr.truthy_opt (section st) = false ->
  no_section_header ls ->
  run st ls = Ok st.
Proof.
  intros Hs H. induction H as [|l ls Hl _ IH]; simpl; [reflexivity|].
  now rewrite (step_skip_empty_section _ _ Hs Hl).
Qed.

(** X4. After a section header whose name is empty, the lines up to the
    next section header are skipped, chapter lines included: the parser
    returns what it returns on the document without them. *)
Theorem lines_under_unnamed_section_skipped
        (pre body rest : list string) (h : string) :
  PyStr.startswith h "## " = true ->
  header_name h = EmptyString ->
  no_section_header body ->
  parse_lines (pre ++ h :: body ++ rest) = parse_lines (pre ++ h :: rest).
Proof.
  intros Hh Hn Hb. unfold parse_lines. rewrite !run_app.
  destruct (run init pre) as [st|e]; simpl; [|reflexivity].
  rewrite (step_section_header _ _ Hh). unfold section_header. rewrite Hn.
  destruct (Dict.mem (book st) EmptyString); simpl; [reflexivity|].
  rewrite run_app, run_skip_empty_section by (auto; reflexivity).
  reflexivity.
Qed.

Lemma lines_under_unnamed_section_skipped_witness :
  parse_lines (PyStr.readlines
                 (doc_lines ["## "; "### 1"; "Line A"; EmptyString; "## Te"]))
  = parse_lines (PyStr.readlines (doc_lines ["## "; "## Te"])).
Proof.
  apply (lines_under_unnamed_section_skipped
           [] (PyStr.readlines (doc_lines ["### 1"; "Line A"; EmptyString]))
           [("## Te" ++ PyStr.nl)%string] ("## " ++ PyStr.nl)%string);
    [reflexivity | reflexivity | repeat constructor].
Defined.

Lemma step_skip_outside_chapter (st : state) (line : string) :
  in_chapter st = false ->
  PyStr.startswith line "## " = false ->
  PyStr.startswith line "### " = false ->
  step st line = Ok st.
Proof.
  unfold step, dispatch, in_chapter. intros -> -> ->.
  now rewrite andb_false_r.
Qed.

Lemma run_skip_outside_chapter (st : state) (ls : list string) :
  in_chapter st = false ->
  Forall (fun l => PyStr.startswith l "## " = false
                   /\ PyStr.startswith l "### " = false) ls ->
  run st ls = Ok st.
Proof.
  intros Hs H. induction H as [|l ls [H2 H3] _ IH]; simpl; [reflexivity|].
  now rewrite (step_skip_outside_chapter _ _ Hs H2 H3).
Qed.

(** X5. After a line starting with ["### "] whose name is empty, the lines
    up to the next header are skipped: they are not recorded anywhere and
    do not reach the passage buffer, and the parser returns what it returns
    on the document without them. *)
Theorem lines_under_unnamed_chapter_skipped
        (pre body rest : list string) (h : string) :
  PyStr.startswith h "### " = true ->
  header_name h = EmptyString ->
  Forall (fun l => PyStr.startswith l "## " = false
                   /\ PyStr.startswith l "### " = false) body ->
  parse_lines (pre ++ h :: body ++ rest) = parse_lines (pre ++ h :: rest).
Proof.
  intros Hh Hn Hb. unfold parse_lines. rewrite !run_app.
  destruct (run init pre) as [st|e]; simpl; [|reflexivity].
  assert (S : match step st h with
              | Ok st1 => in_chapter st1 = false
              | Raise _ => True
              end).
  { unfold step, dispatch, in_chapter.
    rewrite (chapter_marker_not_section_marker _ Hh), Hh.
    destruct (PyStr.truthy_opt (section st)) eqn:Ts; simpl; [|now rewrite Ts].
    unfold chapter_header. rewrite Hn.
    destruct (subscript (book st) (section st)) as [chs|]; simpl; [|exact I].
    destruct (Dict.mem chs EmptyString); simpl; [exact I|].
    destruct (section st); simpl; [apply andb_false_r | exact I]. }
  destruct (step st h) as [st1|e]; simpl; [|reflexivity].
  now rewrite run_app, (run_skip_outside_chapter _ _ S Hb).
Qed.

Lemma lines_under_unnamed_chapter_skipped_witness :
  parse_lines (PyStr.readlines
                 (doc_lines ["## Tao"; "### "; "Line A"; EmptyString; "### 2"]))
  = parse_lines (PyStr.readlines (doc_lines ["## Tao"; "### "; "### 2"])).
Proof.
  apply (lines_under_unnamed_chapter_skipped
           [("## Tao" ++ PyStr.nl)%string]
           (PyStr.readlines (doc_lines ["Line A"; EmptyString]))
           [("### 2" ++ PyStr.nl)%string] ("### " ++ PyStr.nl)%string);
    [reflexivity | reflexivity | repeat constructor].
Defined.

(** ** Blank lines *)

Lemma lstrip_empty_all_space (s : string) :
  PyStr.lstrip_by PyStr.isspace s = EmptyString <-> all_space s = true.
Proof.
  induction s as [|c s IH]; simpl; [tauto|].
  destruct (PyStr.isspace c); simpl; [exact IH|]. split; discriminate.
Qed.

Lemma rstrip_empty_clean (p : ascii -> bool) (s : string) :
  starts_clean p s = true -> PyStr.rstrip_by p s = EmptyString ->
  s = EmptyString.
Proof.
  destruct s as [|c s]; simpl; [reflexivity|].
  intros Hc%negb_true_iff. rewrite Hc.
  destruct (PyStr.rstrip_by p s); discriminate.
Qed.

(** X6. A line counts as blank, the test [line.strip()] being false,
    exactly when all its characters are whitespace. *)
Theorem blank_iff_all_space (line : string) :
  PyStr.truthy (PyStr.strip line) = false <-> all_space line = true.
Proof.
  rewrite <- lstrip_empty_all_space. unfold PyStr.strip. split.
  - intros H. apply (rstrip_empty_clean PyStr.isspace).
    + apply lstrip_starts_clean.
    + destruct (PyStr.rstrip_by _ _); [reflexivity | discriminate].
  - now intros ->.
Qed.

Lemma blank_iff_all_space_witness :
  all_space ("  " ++ PyStr.nl) = true.
Proof.
  apply (proj1 (blank_iff_all_space ("  " ++ PyStr.nl))). reflexivity.
Defined.

(** ** The lines read *)

Lemma concat_empty_cons (x : string) (xs : list string) :
  String.concat EmptyString (x :: xs)
  = (x ++ String.concat EmptyString xs)%string.
Proof.
  destruct xs; simpl; [|reflexivity].
  induction x as [|c x IH]; simpl; [reflexivity | now rewrite <- IH].
Qed.

(** X7. The lines read from a text, put together again, are the text.
    No line is empty, a line has no line end before its last character,
    and every line but the last ends with a line end. *)
Theorem readlines_splits_text (text : string) :
  String.concat EmptyString (PyStr.readlines text) = text
  /\ Forall (fun l => l <> EmptyString /\ nl_only_last l = true)
            (PyStr.readlines text)
  /\ Forall (fun l => ends_with_nl l = true)
            (removelast (PyStr.readlines text)).
Proof.
  induction text as [|c s (IH1 & IH2 & IH3)]; simpl.
  { repeat split; constructor. }
  destruct (Ascii.eqb c (ascii_of_nat 10)) eqn:Ec.
  - split; [|split].
    + rewrite concat_empty_cons, IH1. reflexivity.
    + constructor; [split; [discriminate | reflexivity] | exact IH2].
    + destruct (PyStr.readlines s) as [|l ls]; [constructor|].
      constructor; [cbn [ends_with_nl]; exact Ec | exact IH3].
  - destruct (PyStr.readlines s) as [|l ls].
    + simpl in IH1. subst s. repeat split; repeat constructor. discriminate.
    + rewrite concat_empty_cons in IH1. split; [|split].
      * rewrite concat_empty_cons. simpl. now rewrite IH1.
      * inversion IH2 as [|? ? [Hl Hn] Hls]; subst.
        constructor; [|exact Hls]. split; [discriminate|].
        destruct l as [|c' l]; [contradiction|].
        cbn [nl_only_last]. now rewrite Ec.
      * inversion IH2 as [|? ? [Hl _] _]; subst.
        destruct ls as [|l' ls]; [constructor|].
        inversion IH3; subst. constructor; [|assumption].
        destruct l as [|c' l]; [contradiction | assumption].
Qed.

(** ** Every chapter can be chosen *)

Lemma choice_reaches {A : Type} (l : list A) (a : A) :
  In a l -> exists r, choice l r = Some a.
Proof.
  intros H. apply In_nth_error in H as [n Hn]. exists n.
  assert (n < length l) by (apply nth_error_Some; congruence).
  destruct l as [|a0 l]; [simpl in *; lia|].
  unfold choice. now rewrite Nat.mod_small.
Qed.

(** X8. Every chapter of every section of a book is returned by the
    selector for some pair of numbers drawn, with its title and with its
    passages joined by two line ends. *)
Theorem every_chapter_can_be_chosen
        (b : BOOK_TYPE) (sec ch : string) (chs : Dict.dict (list string))
        (ps : list string) :
  Dict.get b sec = Some chs -> Dict.get chs ch = Some ps ->
  exists r1 r2,
    random_phrase b r1 r2
    = Ok ((sec ++ " - Chapter " ++ ch)%string,
          PyStr.join (PyStr.nl ++ PyStr.nl)%string ps).
Proof.
  intros G1 G2.
  destruct (choice_reaches (Dict.keys b) sec) as [r1 E1].
  { apply mem_keys. now apply (get_mem _ _ chs). }
  destruct (choice_reaches (Dict.keys chs) ch) as [r2 E2].
  { apply mem_keys. now apply (get_mem _ _ ps). }
  exists r1, r2. unfold random_phrase. rewrite E1. simpl. rewrite G1. simpl.
  rewrite E2. simpl. now rewrite G2.
Qed.

Lemma every_chapter_can_be_chosen_witness :
  exists r1 r2,
    random_phrase book_two_passages r1 r2
    = Ok (("Section One" ++ " - Chapter " ++ "1")%string,
          PyStr.join (PyStr.nl ++ PyStr.nl)%string
                     [("Line A" ++ PyStr.nl ++ "Line B")%string; "Line C"]).
Proof.
  apply (every_chapter_can_be_chosen
           book_two_passages "Section One" "1"
           [("1", [("Line A" ++ PyStr.nl ++ "Line B")%string; "Line C"])]);
    reflexivity.
Defined.

(** ** Documents in the layout the parser is written for *)

Lemma set_same {V : Type} (d : Dict.dict V) (k : string) (v : V) :
  Dict.get d k = Some v -> Dict.set d k v = d.
Proof.
  induction d as [|[k0 v0] d IH]; simpl; [discriminate|].
  destruct (String.eqb k0 k); intros H; [now inversion H | now rewrite IH].
Qed.

Lemma set_absent {V : Type} (d : Dict.dict V) (k : string) (v : V) :
  Dict.mem d k = false -> Dict.set d k v = d ++ [(k, v)].
Proof.
  unfold Dict.mem. induction d as [|[k0 v0] d IH]; simpl; [reflexivity|].
  destruct (String.eqb k0 k); [discriminate|]. intros H. now rewrite IH.
Qed.

Lemma rstrip_app_space (p : ascii -> bool) (a b : string) :
  PyStr.rstrip_by p b = EmptyString ->
  PyStr.rstrip_by p (a ++ b) = PyStr.rstrip_by p a.
Proof.
  intros Hb. induction a as [|c a IH]; simpl; [exact Hb | now rewrite IH].
Qed.

Lemma strip_line (x : string) :
  trimmed x -> PyStr.strip (x ++ PyStr.nl) = x.
Proof.
  intros (Hx & Hl & Hr). unfold PyStr.strip.
  rewrite starts_clean_lstrip by now apply starts_clean_app.
  rewrite rstrip_app_space by reflexivity. exact Hr.
Qed.

Lemma section_line_name (sec : string) :
  trimmed sec -> header_name ("## " ++ sec ++ PyStr.nl) = sec.
Proof. intros H. rewrite header_name_section. now apply strip_line. Qed.

Lemma chapter_line_name (ch : string) :
  trimmed ch -> header_name ("### " ++ ch ++ PyStr.nl) = ch.
Proof. intros H. rewrite header_name_chapter. now apply strip_line. Qed.

Lemma trimmed_not_empty (x : string) : trimmed x -> x <> EmptyString.
Proof. now intros [H _]. Qed.

Lemma run_blocks (blocks : list (list string)) :
  forall (st : state) (sec ch : string) (chs : Dict.dict (list string))
         (ps : list string),
    section st = Some sec -> sec <> EmptyString ->
    chapter st = Some ch -> ch <> EmptyString ->
    Dict.get (book st) sec = Some chs -> Dict.get chs ch = Some ps ->
    phrase st = [] ->
    Forall block_ok blocks ->
    exists st',
      run st (flat_map render_block blocks) = Ok st'
      /\ book st'
         = Dict.set (book st) sec
                    (Dict.set chs ch (ps ++ map passage_text blocks))
      /\ section st' = Some sec /\ chapter st' = Some ch /\ phrase st' = [].
Proof.
  induction blocks as [|cs blocks IH];
    intros st sec ch chs ps Hs Hsn Hc Hcn G1 G2 Hp Hb; simpl.
  - exists st. rewrite app_nil_r, (set_same _ _ _ G2), (set_same _ _ _ G1).
    auto.
  - inversion Hb as [|? ? [Hne Hcs] Hbs]; subst.
    unfold render_block at 1. rewrite run_app, run_snoc.
    rewrite (run_content _ _ Hcs). unfold in_chapter.
    rewrite Hs, Hc, (truthy_opt_some _ Hsn), (truthy_opt_some _ Hcn), Hp.
    cbn [andb bind app].
    rewrite (step_blank_flush _ sec ch PyStr.nl chs ps);
      cbn [section chapter book phrase]; auto;
      [|destruct cs; [contradiction | discriminate]].
    cbn [bind].
    match goal with
    | |- exists _, run ?s1 _ = _ /\ _ =>
        destruct (IH s1 sec ch (Dict.set chs ch (ps ++ [passage_text cs]))
                     (ps ++ [passage_text cs]))
          as (st' & E & Hbk & Hs' & Hc' & Hp');
          cbn [section chapter book phrase]; auto using get_set_same
    end.
    exists st'. split; [exact E|]. repeat split; auto.
    rewrite Hbk. cbn [book]. now rewrite !set_set, <- app_assoc.
Qed.

Lemma run_chapter_render (st : state) (sec : string)
      (chs : Dict.dict (list string)) (c : string * list (list string)) :
  section st = Some sec -> sec <> EmptyString ->
  Dict.get (book st) sec = Some chs ->
  phrase st = [] ->
  Dict.mem chs (fst c) = false ->
  chapter_ok c ->
  exists st',
    run st (render_chapter c) = Ok st'
    /\ book st' = Dict.set (book st) sec (chs ++ [chapter_entry c])
    /\ section st' = Some sec /\ phrase st' = [].
Proof.
  intros Hs Hsn G Hp M [Ht Hb]. destruct c as [ch blocks]. cbn [fst snd] in *.
  unfold render_chapter. cbn [fst snd run].
  rewrite (step_chapter_header st sec) by
      (auto; apply startswith_app; eexists; reflexivity).
  unfold chapter_header. rewrite (chapter_line_name _ Ht), Hs.
  cbn [subscript]. rewrite G. cbn [bind]. rewrite M. cbn [negb bind].
  match goal with
  | |- exists _, run ?s1 _ = _ /\ _ =>
      destruct (run_blocks blocks s1 sec ch (Dict.set chs ch []) [])
        as (st' & E & Hbk & Hs' & _ & Hp');
        cbn [section chapter book phrase];
        auto using get_set_same, trimmed_not_empty
  end.
  exists st'. split; [exact E|]. repeat split; auto.
  rewrite Hbk. cbn [book app]. rewrite !set_set.
  unfold chapter_entry. cbn [fst snd]. now rewrite (set_absent _ _ _ M).
Qed.

Lemma run_chapters_render (chapters : list (string * list (list string))) :
  forall (st : state) (sec : string) (chs : Dict.dict (list string)),
    section st = Some sec -> sec <> EmptyString ->
    Dict.get (book st) sec = Some chs ->
    phrase st = [] ->
    NoDup (Dict.keys chs ++ map fst chapters) ->
    Forall chapter_ok chapters ->
    exists st',
      run st (flat_map render_chapter chapters) = Ok st'
      /\ book st' = Dict.set (book st) sec (chs ++ map chapter_entry chapters)
      /\ section st' = Some sec /\ phrase st' = [].
Proof.
  induction chapters as [|c chapters IH];
    intros st sec chs Hs Hsn G Hp Hnd Hok; cbn [flat_map map run].
  - exists st. rewrite app_nil_r, (set_same _ _ _ G). auto.
  - inversion Hok as [|? ? Hc Hcs]; subst. simpl in Hnd.
    assert (M : Dict.mem chs (fst c) = false).
    { apply NoDup_remove_2 in Hnd.
      destruct (Dict.mem chs (fst c)) eqn:M; [|reflexivity].
      exfalso. apply Hnd, in_or_app. left. now apply mem_keys. }
    destruct (run_chapter_render st sec chs c Hs Hsn G Hp M Hc)
      as (st1 & E1 & Hb1 & Hs1 & Hp1).
    destruct (IH st1 sec (chs ++ [chapter_entry c])) as (st' & E & Hb & Hs' & Hp');
      auto.
    + rewrite Hb1. apply get_set_same.
    + unfold Dict.keys. rewrite map_app. simpl. rewrite <- app_assoc.
      exact Hnd.
    + exists st'. rewrite run_app, E1. simpl. split; [exact E|].
      repeat split; auto. rewrite Hb, Hb1, set_set, <- app_assoc. reflexivity.
Qed.

Lemma run_section_render (st : state)
      (s : string * list (string * list (list string))) :
  Dict.mem (book st) (fst s) = false ->
  section_ok s ->
  exists st',
    run st (render_section s) = Ok st'
    /\ book st' = book st ++ [section_entry s].
Proof.
  intros M (Ht & Hnd & Hok). destruct s as [sec chapters]. cbn [fst snd] in *.
  unfold render_section. cbn [fst snd run].
  rewrite step_section_header by (apply startswith_app; eexists; reflexivity).
  unfold section_header. rewrite (section_line_name _ Ht), M. cbn [negb bind].
  match goal with
  | |- exists _, run ?s1 _ = _ /\ _ =>
      destruct (run_chapters_render chapters s1 sec [])
        as (st' & E & Hbk & _);
        cbn [section chapter book phrase];
        auto using get_set_same, trimmed_not_empty
  end.
  exists st'. split; [exact E|]. rewrite Hbk. cbn [book app].
  rewrite set_set. unfold section_entry. cbn [fst snd].
  now rewrite (set_absent _ _ _ M).
Qed.

Lemma run_render (o : outline) :
  forall st : state,
    NoDup (Dict.keys (book st) ++ map fst o) ->
    Forall section_ok o ->
    exists st',
      run st (render o) = Ok st' /\ book st' = book st ++ book_of_outline o.
Proof.
  induction o as [|s o IH]; intros st Hnd Hok; unfold render, book_of_outline;
    cbn [flat_map map run].
  - exists st. now rewrite app_nil_r.
  - inversion Hok as [|? ? Hs Hss]; subst. simpl in Hnd.
    assert (M : Dict.mem (book st) (fst s) = false).
    { apply NoDup_remove_2 in Hnd.
      destruct (Dict.mem (book st) (fst s)) eqn:M; [|reflexivity].
      exfalso. apply Hnd, in_or_app. left. now apply mem_keys. }
    destruct (run_section_render st s M Hs) as (st1 & E1 & Hb1).
    destruct (IH st1) as (st' & E & Hb); auto.
    + rewrite Hb1. unfold Dict.keys. rewrite map_app. simpl.
      rewrite <- app_assoc. exact Hnd.
    + exists st'. rewrite run_app, E1. simpl.
      split; [exact E|]. rewrite Hb, Hb1, <- app_assoc. reflexivity.
Qed.

(** X9. A document laid out as a list of sections, each a header line with
    a name and its chapters, each chapter a header line with a name and
    its blocks, each block one or more lines of content and an empty line,
    is parsed into the book with these sections and chapters in the order
    of the document, when the names are trimmed, not empty and not
    repeated. Each block gives one passage, its trimmed lines joined by
    line ends, and the passages of a chapter are in the order of the
    blocks. *)
Theorem parse_rendered_outline (o : outline) :
  outline_ok o -> parse_lines (render o) = Ok (book_of_outline o).
Proof.
  intros [Hnd Hok]. unfold parse_lines.
  destruct (run_render o init) as (st & E & Hb); [exact Hnd | exact Hok |].
  rewrite E. simpl. now rewrite Hb.
Qed.

Lemma parse_rendered_outline_witness :
  parse_lines
    (render [("Tao", [("1", [[("Line A" ++ PyStr.nl)%string;
                              ("  Line B " ++ PyStr.nl)%string];
                             [("Line C" ++ PyStr.nl)%string]]);
                      ("2", [])]);
             ("Te", [("38", [[("Line D" ++ PyStr.nl)%string]])])])
  = Ok [("Tao", [("1", [("Line A" ++ PyStr.nl ++ "Line B")%string; "Line C"]);
                 ("2", [])]);
        ("Te", [("38", ["Line D"])])].
Proof.
  apply (parse_rendered_outline
           [("Tao", [("1", [[("Line A" ++ PyStr.nl)%string;
                             ("  Line B " ++ PyStr.nl)%string];
                            [("Line C" ++ PyStr.nl)%string]]);
                     ("2", [])]);
            ("Te", [("38", [[("Line D" ++ PyStr.nl)%string]])])]).
  split.
  - simpl. repeat constructor; simpl; intuition discriminate.
  - repeat constructor; simpl; try discriminate; intuition discriminate.
Defined.

(** ** The selector on a parsed book *)

Lemma trimmed_join_sep (sep : string) (xs : list string) :
  xs <> [] -> Forall trimmed xs -> trimmed (PyStr.join sep xs).
Proof.
  intros Hne H. induction H as [|x xs Hx Hxs IH]; [contradiction|].
  destruct xs as [|y xs]; [exact Hx|].
  assert (J : trimmed (PyStr.join sep (y :: xs))) by (apply IH; discriminate).
  change (PyStr.join sep (x :: y :: xs))
    with (x ++ sep ++ PyStr.join sep (y :: xs))%string.
  destruct Hx as (Hx0 & Hxl & _). destruct J as (J0 & _ & Jr).
  assert (R : PyStr.rstrip_by PyStr.isspace (sep ++ PyStr.join sep (y :: xs))
              = (sep ++ PyStr.join sep (y :: xs))%string).
  { rewrite rstrip_app by now rewrite Jr. now rewrite Jr. }
  split; [|split].
  - destruct x; [contradiction | discriminate].
  - now apply starts_clean_app.
  - rewrite rstrip_app; rewrite R; [reflexivity|].
    destruct sep; simpl; [exact J0 | discriminate].
Qed.

Lemma dispatch_chapter_header (st : state) (line : string) :
  dispatch st line = ChapterHeader -> PyStr.startswith line "### " = true.
Proof.
  unfold dispatch. destruct (PyStr.startswith line "## "); [discriminate|].
  destruct (PyStr.startswith line "### "); [reflexivity|].
  rewrite andb_false_r.
  destruct (PyStr.truthy_opt (section st) && PyStr.truthy_opt (chapter st));
    discriminate.
Qed.

Lemma chapter_keys_of_set (lines : list string) (b : BOOK_TYPE) (sec : string)
      (chs : Dict.dict (list string)) :
  chapter_keys_of lines b ->
  (forall ch ps, In (ch, ps) chs -> In ch (chapter_names lines)) ->
  chapter_keys_of lines (Dict.set b sec chs).
Proof.
  intros Hb Hc sec' chs' ch ps H1 H2.
  apply in_set in H1 as [H1|[_ ->]]; eauto.
Qed.

Lemma step_chapter_keys (lines : list string) (st st' : state) (line : string) :
  In line lines -> chapter_keys_of lines (book st) ->
  step st line = Ok st' -> chapter_keys_of lines (book st').
Proof.
  intros Hin Hb. unfold step. destruct (dispatch st line) eqn:D.
  - unfold section_header.
    destruct (Dict.mem (book st) (header_name line)); simpl; [discriminate|].
    intros E; inversion E; subst st'; simpl.
    apply chapter_keys_of_set; [exact Hb | intros ? ? []].
  - unfold chapter_header. intros E.
    apply bind_ok_inv in E as (chs & G & E).
    destruct (Dict.mem chs (header_name line)); simpl in E; [discriminate|].
    destruct (section st) as [sec|]; [|discriminate].
    inversion E; subst st'; simpl. unfold subscript in G.
    destruct (Dict.get (book st) sec) as [chs0|] eqn:G0; inversion G; subst chs0.
    apply get_in in G0. apply chapter_keys_of_set; [exact Hb|].
    intros ch ps H. apply in_set in H as [H|[-> _]]; [eauto|].
    unfold chapter_names. apply in_map, filter_In. split; [exact Hin|].
    now apply (dispatch_chapter_header st).
  - unfold text_line. destruct (PyStr.truthy (PyStr.strip line)).
    { intros E; inversion E; now subst st'. }
    destruct (phrase st); [intros E; inversion E; now subst st'|].
    intros E. apply bind_ok_inv in E as (chs & G & E).
    apply bind_ok_inv in E as (ps & G' & E).
    destruct (section st) as [sec|]; [|discriminate].
    destruct (chapter st) as [ch|]; [|discriminate].
    inversion E; subst st'; simpl. unfold subscript in G, G'.
    destruct (Dict.get (book st) sec) as [chs0|] eqn:G0; inversion G; subst chs0.
    destruct (Dict.get chs ch) as [ps0|] eqn:G1; inversion G'; subst ps0.
    apply get_in in G0, G1. apply chapter_keys_of_set; [exact Hb|].
    intros ch' ps' H. apply in_set in H as [H|[-> _]]; eauto.
  - intros E; inversion E; now subst st'.
Qed.

Lemma run_chapter_keys (lines ls : list string) (st st' : state) :
  incl ls lines -> chapter_keys_of lines (book st) ->
  run st ls = Ok st' -> chapter_keys_of lines (book st').
Proof.
  revert st. induction ls as [|l ls IH]; intros st Hin Hb; simpl.
  - intros E; inversion E; now subst.
  - intros E. apply bind_ok_inv in E as (st1 & E1 & E).
    apply (IH st1); [intros x Hx; apply Hin; now right | | exact E].
    apply (step_chapter_keys lines st st1 l); auto. apply Hin. now left.
Qed.

(** X10. What the selector returns on the book of a parsed document: the
    title names a section that a section header of the document gives and
    a chapter that a chapter line of the document gives, and the text has
    no whitespace at either end (it is empty when the chapter has no
    passage). *)
Theorem selection_from_parsed_book
        (ls : list string) (b : BOOK_TYPE) (r1 r2 : nat) (title text : string) :
  parse_lines ls = Ok b ->
  random_phrase b r1 r2 = Ok (title, text) ->
  (exists sec ch,
      title = (sec ++ " - Chapter " ++ ch)%string
      /\ In sec (section_names ls) /\ In ch (chapter_names ls))
  /\ PyStr.strip text = text
  /\ (text = EmptyString <->
      exists sec chs ch,
        choice (Dict.keys b) r1 = Some sec /\ Dict.get b sec = Some chs
        /\ choice (Dict.keys chs) r2 = Some ch /\ Dict.get chs ch = Some []).
Proof.
  unfold parse_lines. intros E R.
  apply bind_ok_inv in E as (st & E & Eb). inversion Eb; subst b.
  destruct (run_sections ls init st keys_present_init (NoDup_nil _) E)
    as (_ & K & _). simpl in K.
  assert (Hc : chapter_keys_of ls (book st)).
  { apply (run_chapter_keys ls ls init st (incl_refl _)); [|exact E].
    intros ? ? ? ? []. }
  destruct (passages_inv_run (fun _ => False) ls ls init st (incl_refl _)
              (passages_inv_init _ ls) E) as [_ Hp].
  unfold random_phrase in R.
  destruct (choice (Dict.keys (book st)) r1) as [sec|] eqn:E1; [|discriminate].
  unfold subscript at 1 in R.
  destruct (Dict.get (book st) sec) as [chs|] eqn:G1; simpl in R; [|discriminate].
  destruct (choice (Dict.keys chs) r2) as [ch|] eqn:E2; [|discriminate].
  unfold subscript in R.
  destruct (Dict.get chs ch) as [ps|] eqn:G2; simpl in R; [|discriminate].
  inversion R; subst title text. clear R.
  pose proof (get_in _ _ _ G1) as I1. pose proof (get_in _ _ _ G2) as I2.
  assert (Hps : Forall trimmed ps).
  { apply Forall_forall. intros q Hq.
    destruct (Hp _ _ _ _ _ I1 I2 Hq) as [[]|Hq'].
    now apply (passage_of_trimmed ls). }
  split; [|split].
  - exists sec, ch. split; [reflexivity|]. split.
    + rewrite <- K. now apply (choice_in _ r1).
    + now apply (Hc sec chs ch ps).
  - destruct ps as [|q ps]; [reflexivity|].
    apply strip_trimmed, trimmed_join_sep; [discriminate | exact Hps].
  - split.
    + intros H0. exists sec, chs, ch. repeat split; auto.
      destruct ps as [|q ps]; [exact G2|]. exfalso.
      assert (T : trimmed (PyStr.join (PyStr.nl ++ PyStr.nl) (q :: ps)))
        by (apply trimmed_join_sep; [discriminate | exact Hps]).
      now apply T.
    + intros (sec' & chs' & ch' & E1' & G1' & E2' & G2').
      inversion E1'; subst sec'. rewrite G1 in G1'. inversion G1'; subst chs'.
      rewrite E2 in E2'. inversion E2'; subst ch'.
      rewrite G2 in G2'. inversion G2'; subst ps. reflexivity.
Qed.

Lemma selection_from_parsed_book_witness :
  let text := ("Line A" ++ PyStr.nl ++ "Line B" ++ PyStr.nl ++ PyStr.nl
               ++ "Line C")%string in
  (exists sec ch,
      "Section One - Chapter 1" = (sec ++ " - Chapter " ++ ch)%string
      /\ In sec (section_names (PyStr.readlines doc8_blank))
      /\ In ch (chapter_names (PyStr.readlines doc8_blank)))
  /\ PyStr.strip text = text
  /\ (text = EmptyString <->
      exists sec chs ch,
        choice (Dict.keys book_two_passages) 0 = Some sec
        /\ Dict.get book_two_passages sec = Some chs
        /\ choice (Dict.keys chs) 0 = Some ch /\ Dict.get chs ch = Some []).
Proof.
  intros text.
  apply (selection_from_parsed_book (PyStr.readlines doc8_blank)
           book_two_passages 0 0); reflexivity.
Defined.

(** * The driver *)

Lemma random_phrase_raises (b : BOOK_TYPE) (r1 r2 : nat) (e : exn) :
  random_phrase b r1 r2 = Raise e ->
  (e = EmptyBookError /\ b = [])
  \/ (e = EmptyChapterError
      /\ exists sec, choice (Dict.keys b) r1 = Some sec
                     /\ Dict.get b sec = Some []).
Proof.
  unfold random_phrase.
  destruct (choice (Dict.keys b) r1) as [sec|] eqn:E1.
  - destruct (keys_get b sec (choice_in _ _ _ E1)) as [chs G1].
    simpl. rewrite G1. simpl.
    destruct (choice (Dict.keys chs) r2) as [ch|] eqn:E2.
    + destruct (keys_get chs ch (choice_in _ _ _ E2)) as [ps G2].
      simpl. rewrite G2. discriminate.
    + intros E; inversion E. right. split; [reflexivity|]. exists sec.
      split; [reflexivity|]. apply choice_none in E2.
      destruct chs; [exact G1 | discriminate].
  - intros E; inversion E. left. split; [reflexivity|].
    apply choice_none in E1. destruct b; [reflexivity | discriminate].
Qed.

Lemma parse_book_raises (text : string) (e : exn) :
  parse_book text = Raise e ->
  (exists name, e = DuplicateSectionError name)
  \/ (exists name, e = DuplicateChapterError name).
Proof.
  unfold parse_book, parse_lines. intros E.
  destruct (run init (PyStr.readlines text)) as [st|e0] eqn:R; simpl in E;
    [discriminate|].
  inversion E; subst e0. exact (run_failures _ init e keys_present_init R).
Qed.

(** The ten ways through [main]. *)
Lemma main_cases (w : world) (p : string) :
  let path := resolve w p in
  let r1 := random1 w in
  let r2 := random2 w in
  (lookup_path w path = Absent
   /\ main w p = die ("Error: " ++ path ++ " not found") [])
  \/ (lookup_path w path = Unreadable
      /\ main w p = crash UncaughtOSError [])
  \/ (exists text name,
         lookup_path w path = TextFile text
         /\ parse_book text = Raise (DuplicateSectionError name)
         /\ main w p = die ("Error: duplicate section " ++ name) [])
  \/ (exists text name,
         lookup_path w path = TextFile text
         /\ parse_book text = Raise (DuplicateChapterError name)
         /\ main w p = die ("Error: duplicate chapter " ++ name) [])
  \/ (exists text b e,
         lookup_path w path = TextFile text
         /\ parse_book text = Ok b
         /\ random_phrase b r1 r2 = Raise e
         /\ main w p = crash UncaughtIndexError [])
  \/ (exists text b title message,
         lookup_path w path = TextFile text
         /\ parse_book text = Ok b
         /\ random_phrase b r1 r2 = Ok (title, message)
         /\ ((PyStr.truthy_opt (slack_webhook w) = false
              /\ main w p
                 = die "Error: SLACK_WEBHOOK environment variable not set" [])
             \/ exists url,
                 slack_webhook w = Some url /\ url <> EmptyString
                 /\ ((http_post w url title message = RequestFailed
                      /\ main w p = crash UncaughtRequestException
                                          [(url, title, message)])
                     \/ (exists code body,
                            http_post w url title message
                            = Response false code body
                            /\ main w p
                               = die ("Error: " ++ str_of_nat code ++ " - "
                                      ++ body)
                                     [(url, title, message)])
                     \/ (exists code body,
                            http_post w url title message
                            = Response true code body
                            /\ main w p
                               = {| stdout := ["Message sent"];
                                    posts := [(url, title, message)];
                                    status := Returned |})))).
Proof.
  intros path r1 r2. unfold main. fold path r1 r2.
  destruct (lookup_path w path) as [| |text] eqn:L; [now left | now right; left|].
  do 2 right.
  destruct (parse_book text) as [b|e] eqn:P.
  - do 2 right.
    destruct (random_phrase b r1 r2) as [[title message]|e] eqn:R.
    + right. exists text, b, title, message. repeat split; auto.
      destruct (slack_webhook w) as [url|] eqn:W; [|now left].
      destruct url as [|c url]; [now left|]. right.
      exists (String c url). split; [reflexivity|]. split; [discriminate|].
      cbn [PyStr.truthy negb].
      destruct (http_post w (String c url) title message) as [ok code body|];
        [|now left].
      right. destruct ok; [right | left]; exists code, body; auto.
    + left. exists text, b, e. repeat split; auto.
      destruct (random_phrase_raises b r1 r2 e R) as [[-> _]|[-> _]]; reflexivity.
  - destruct (parse_book_raises text e P) as [[name ->]|[name ->]].
    + left. exists text, name. auto.
    + right; left. exists text, name. auto.
Qed.

Lemma startswith_error (rest : string) :
  PyStr.startswith ("Error: " ++ rest) "Error: " = true.
Proof. apply startswith_app. now exists rest. Qed.

(** X11. [main] returns exactly when the file is there and is parsed,
    the selector returns a title and a message, the webhook is set to a
    string that is not empty and the post of the title and the message to
    it is answered with [ok]; it has then printed [Message sent] and made
    this one post. *)
Theorem main_returns_iff (w : world) (p : string) :
  (status (main w p) = Returned <->
   exists text b title message url code body,
     lookup_path w (resolve w p) = TextFile text
     /\ parse_book text = Ok b
     /\ random_phrase b (random1 w) (random2 w) = Ok (title, message)
     /\ slack_webhook w = Some url /\ url <> EmptyString
     /\ http_post w url title message = Response true code body)
  /\ (forall text b title message url code body,
         lookup_path w (resolve w p) = TextFile text ->
         parse_book text = Ok b ->
         random_phrase b (random1 w) (random2 w) = Ok (title, message) ->
         slack_webhook w = Some url -> url <> EmptyString ->
         http_post w url title message = Response true code body ->
         main w p = {| stdout := ["Message sent"];
                       posts := [(url, title, message)];
                       status := Returned |}).
Proof.
  assert (F : forall text b title message url code body,
             lookup_path w (resolve w p) = TextFile text ->
             parse_book text = Ok b ->
             random_phrase b (random1 w) (random2 w) = Ok (title, message) ->
             slack_webhook w = Some url -> url <> EmptyString ->
             http_post w url title message = Response true code body ->
             main w p = {| stdout := ["Message sent"];
                           posts := [(url, title, message)];
                           status := Returned |}).
  { intros text b title message url code body L P R W U H.
    unfold main. rewrite L, P, R, W.
    destruct url as [|c url]; [contradiction|].
    cbn [PyStr.truthy negb]. now rewrite H. }
  split; [|exact F]. split.
  - intros S.
    destruct (main_cases w p)
      as [[_ M]|[[_ M]|[(t & n & _ & _ & M)|[(t & n & _ & _ & M)
         |[(t & b & e & _ & _ & _ & M)|(t & b & ti & me & L & P & R & C)]]]]];
      try (rewrite M in S; discriminate).
    destruct C as [[_ M]|(url & W & U & [[_ M]|[(c & bd & _ & M)|(c & bd & H & M)]])];
      try (rewrite M in S; discriminate).
    exists t, b, ti, me, url, c, bd. repeat split; auto.
  - intros (t & b & ti & me & url & c & bd & L & P & R & W & U & H).
    now rewrite (F t b ti me url c bd L P R W U H).
Qed.

Lemma main_returns_iff_witness :
  status (main world_ok "tao.md") = Returned
  /\ main world_ok "tao.md"
     = {| stdout := ["Message sent"];
          posts := [("https://hooks.example/T", "Section One - Chapter 1",
                     ("Line A" ++ PyStr.nl ++ "Line B" ++ PyStr.nl ++ PyStr.nl
                      ++ "Line C")%string)];
          status := Returned |}.
Proof.
  split.
  - apply (proj2 (proj1 (main_returns_iff world_ok "tao.md"))).
    exists doc8_blank, book_two_passages, "Section One - Chapter 1",
      ("Line A" ++ PyStr.nl ++ "Line B" ++ PyStr.nl ++ PyStr.nl ++ "Line C")%string,
      "https://hooks.example/T", 200, "ok".
    repeat split; try reflexivity. discriminate.
  - apply (proj2 (main_returns_iff world_ok "tao.md")
             doc8_blank book_two_passages _ _ _ 200 "ok");
      try reflexivity. discriminate.
Defined.

(** X12. [main] calls the webhook once at most, and only after the file
    was read and parsed and the selector returned: what it posts is the
    title and the message of the selector, to the value of the webhook
    variable, which is not empty. *)
Theorem main_posts_once (w : world) (p : string)
        (c : string * string * string) :
  In c (posts (main w p)) ->
  posts (main w p) = [c]
  /\ exists text b url title message,
      c = (url, title, message)
      /\ lookup_path w (resolve w p) = TextFile text
      /\ parse_book text = Ok b
      /\ random_phrase b (random1 w) (random2 w) = Ok (title, message)
      /\ slack_webhook w = Some url /\ url <> EmptyString.
Proof.
  intros Hc.
  destruct (main_cases w p)
    as [[_ M]|[[_ M]|[(t & n & _ & _ & M)|[(t & n & _ & _ & M)
       |[(t & b & e & _ & _ & _ & M)|(t & b & ti & me & L & P & R & C)]]]]];
    try (rewrite M in Hc; contradiction).
  destruct C as [[_ M]|(url & W & U & [[_ M]|[(cd & bd & _ & M)|(cd & bd & _ & M)]])];
    try (rewrite M in Hc; contradiction);
    rewrite M in *; simpl in *; destruct Hc as [<-|[]];
    (split; [reflexivity|]); exists t, b, url, ti, me; auto 10.
Qed.

Lemma main_posts_once_witness :
  let c := ("https://hooks.example/T", "Section One - Chapter 1",
            ("Line A" ++ PyStr.nl ++ "Line B" ++ PyStr.nl ++ PyStr.nl
             ++ "Line C")%string) in
  posts (main world_ok "tao.md") = [c]
  /\ exists text b url title message,
      c = (url, title, message)
      /\ lookup_path world_ok (resolve world_ok "tao.md") = TextFile text
      /\ parse_book text = Ok b
      /\ random_phrase b (random1 world_ok) (random2 world_ok)
         = Ok (title, message)
      /\ slack_webhook world_ok = Some url /\ url <> EmptyString.
Proof.
  intros c. apply (main_posts_once world_ok "tao.md" c). now left.
Defined.

(** X13. The calls of [print] tell how [main] ended: after [sys.exit] the
    code is 1 and [print] was called once, with a text that starts with
    [Error: ]; after an uncaught exception [print] was not called; and
    when [main] returns [print] was called once, with [Message sent]. *)
Theorem main_output_by_status (w : world) (p : string) :
  match status (main w p) with
  | SysExit code =>
      code = 1
      /\ exists line, stdout (main w p) = [line]
                      /\ PyStr.startswith line "Error: " = true
  | Traceback _ => stdout (main w p) = []
  | Returned => stdout (main w p) = ["Message sent"]
  end.
Proof.
  destruct (main_cases w p)
    as [[_ M]|[[_ M]|[(t & n & _ & _ & M)|[(t & n & _ & _ & M)
       |[(t & b & e & _ & _ & _ & M)|(t & b & ti & me & L & P & R & C)]]]]];
    [| | | | |destruct C
                as [[_ M]|(url & W & U
                           & [[_ M]|[(cd & bd & _ & M)|(cd & bd & _ & M)]])]];
    rewrite M; cbn [status stdout die crash]; auto;
    (split; [reflexivity|]); eexists; (split; [reflexivity|]);
    first [apply startswith_error | reflexivity].
Qed.

(** X14. The exceptions that [main] lets through: the one of a path that
    cannot be read as a text, the one of the selector on a book without
    sections or on a chosen section without chapters, and the one of the
    post. No subscript of the parser or of the selector misses its key. *)
Theorem main_uncaught (w : world) (p : string) (e : uncaught) :
  status (main w p) = Traceback e ->
  (e = UncaughtOSError /\ lookup_path w (resolve w p) = Unreadable)
  \/ (e = UncaughtIndexError
      /\ exists text b,
          lookup_path w (resolve w p) = TextFile text
          /\ parse_book text = Ok b
          /\ (b = []
              \/ exists sec, choice (Dict.keys b) (random1 w) = Some sec
                             /\ Dict.get b sec = Some []))
  \/ (e = UncaughtRequestException
      /\ exists url title message,
          http_post w url title message = RequestFailed
          /\ posts (main w p) = [(url, title, message)]).
Proof.
  intros S.
  destruct (main_cases w p)
    as [[_ M]|[[L M]|[(t & n & _ & _ & M)|[(t & n & _ & _ & M)
       |[(t & b & e' & L & P & R & M)|(t & b & ti & me & L & P & R & C)]]]]];
    try (rewrite M in S; discriminate).
  - left. rewrite M in S. inversion S. auto.
  - right; left. rewrite M in S. inversion S. split; [reflexivity|].
    exists t, b. repeat split; auto.
    destruct (random_phrase_raises _ _ _ _ R) as [[_ ->]|[_ H]]; auto.
  - destruct C as [[_ M]|(url & W & U & [[H M]|[(c & bd & _ & M)|(c & bd & _ & M)]])];
      try (rewrite M in S; discriminate).
    do 2 right. rewrite M in *. inversion S. split; [reflexivity|].
    exists url, ti, me. auto.
Qed.

Lemma main_uncaught_witness :
  (UncaughtOSError = UncaughtOSError
   /\ lookup_path world_unreadable (resolve world_unreadable "tao") = Unreadable)
  \/ (UncaughtOSError = UncaughtIndexError
      /\ exists text b,
          lookup_path world_unreadable (resolve world_unreadable "tao")
          = TextFile text
          /\ parse_book text = Ok b
          /\ (b = []
              \/ exists sec,
                  choice (Dict.keys b) (random1 world_unreadable) = Some sec
                  /\ Dict.get b sec = Some []))
  \/ (UncaughtOSError = UncaughtRequestException
      /\ exists url title message,
          http_post world_unreadable url title message = RequestFailed
          /\ posts (main world_unreadable "tao") = [(url, title, message)]).
Proof.
  apply (main_uncaught world_unreadable "tao" UncaughtOSError). reflexivity.
Defined.

Lemma no_section_names (ls : list string) :
  section_names ls = [] -> no_section_header ls.
Proof.
  unfold no_section_header. induction ls as [|l ls IH]; [constructor|].
  rewrite section_names_cons.
  destruct (PyStr.startswith l "## ") eqn:H; [discriminate|].
  intros E. constructor; auto.
Qed.

(** X15. On a file in which no line starts with ["## "], an empty file for
    one, [main] ends in the uncaught exception of the selector: the book
    is empty, the choice of a section comes before the look-up of the
    webhook, and nothing is printed or posted, whether the webhook is set
    or not. *)
Theorem main_without_section (w : world) (p text : string) :
  lookup_path w (resolve w p) = TextFile text ->
  section_names (PyStr.readlines text) = [] ->
  main w p = crash UncaughtIndexError [].
Proof.
  intros L Hn. unfold main. rewrite L.
  unfold parse_book, parse_lines.
  rewrite (run_no_section init _ eq_refl (no_section_names _ Hn)).
  reflexivity.
Qed.

Lemma main_without_section_witness :
  main world_no_section "tao.md" = crash UncaughtIndexError [].
Proof.
  apply (main_without_section world_no_section "tao.md"
           (doc_lines ["# Tao Te Ching"; "### 1"; "Line A"]));
    reflexivity.
Defined.

(** * Lines that change nothing *)

(** X16. The lines between a section header and the next header are
    skipped: with no chapter current they are not recorded and do not
    reach the passage buffer, and the parser returns what it returns on
    the document without them. *)
Theorem lines_before_first_chapter_skipped
        (pre body rest : list string) (h : string) :
  PyStr.startswith h "## " = true ->
  Forall (fun l => PyStr.startswith l "## " = false
                   /\ PyStr.startswith l "### " = false) body ->
  parse_lines (pre ++ h :: body ++ rest) = parse_lines (pre ++ h :: rest).
Proof.
  intros Hh Hb. unfold parse_lines. rewrite !run_app.
  destruct (run init pre) as [st|e]; simpl; [|reflexivity].
  rewrite (step_section_header _ _ Hh). unfold section_header.
  destruct (Dict.mem (book st) (header_name h)); simpl; [reflexivity|].
  rewrite run_app, run_skip_outside_chapter; [reflexivity | | exact Hb].
  unfold in_chapter. simpl. apply andb_false_r.
Qed.

Lemma lines_before_first_chapter_skipped_witness :
  parse_lines (PyStr.readlines
                 (doc_lines ["## Tao"; "Line A"; EmptyString; "### 1"]))
  = parse_lines (PyStr.readlines (doc_lines ["## Tao"; "### 1"])).
Proof.
  apply (lines_before_first_chapter_skipped
           [] (PyStr.readlines (doc_lines ["Line A"; EmptyString]))
           [("### 1" ++ PyStr.nl)%string] ("## Tao" ++ PyStr.nl)%string);
    [reflexivity | repeat constructor].
Defined.

Lemma step_blank_settles (st st1 : state) (line : string) :
  is_blank line = true -> step st line = Ok st1 ->
  in_chapter st1 = false \/ phrase st1 = [].
Proof.
  unfold is_blank. intros H.
  apply andb_prop in H as [H H3]. apply andb_prop in H as [Ht H2].
  apply negb_true_iff in Ht, H2, H3.
  unfold step, dispatch, in_chapter. rewrite H2, H3, andb_false_r.
  destruct (PyStr.truthy_opt (section st) && PyStr.truthy_opt (chapter st))
    eqn:C.
  - unfold text_line. rewrite Ht.
    destruct (phrase st) as [|x xs] eqn:Ep.
    + intros E; inversion E; subst st1. now right.
    + intros E. apply bind_ok_inv in E as (chs & _ & E).
      apply bind_ok_inv in E as (ps & _ & E).
      destruct (section st); [|discriminate].
      destruct (chapter st); [|discriminate].
      inversion E; subst st1. now right.
  - intros E; inversion E; subst st1. now left.
Qed.

Lemma step_blank_settled (st : state) (line : string) :
  is_blank line = true ->
  in_chapter st = false \/ phrase st = [] ->
  step st line = Ok st.
Proof.
  unfold is_blank. intros H.
  apply andb_prop in H as [H H3]. apply andb_prop in H as [Ht H2].
  apply negb_true_iff in Ht, H2, H3.
  unfold step, dispatch, in_chapter. rewrite H2, H3, andb_false_r.
  intros [C|P].
  - now rewrite C.
  - destruct (PyStr.truthy_opt (section st) && PyStr.truthy_opt (chapter st));
      [|reflexivity].
    unfold text_line. now rewrite Ht, P.
Qed.

(** X17. A blank line that follows a blank line does nothing: the parser
    returns on the document what it returns on the document without the
    second of the two. *)
Theorem repeated_blank_line_ignored
        (pre rest : list string) (blank blank' : string) :
  is_blank blank = true -> is_blank blank' = true ->
  parse_lines (pre ++ blank :: blank' :: rest)
  = parse_lines (pre ++ blank :: rest).
Proof.
  intros Hb Hb'. unfold parse_lines. rewrite !run_app.
  destruct (run init pre) as [st|e]; simpl; [|reflexivity].
  destruct (step st blank) as [st1|e] eqn:E; simpl; [|reflexivity].
  now rewrite (step_blank_settled st1 blank' Hb' (step_blank_settles _ _ _ Hb E)).
Qed.

Lemma repeated_blank_line_ignored_witness :
  parse_lines (PyStr.readlines
                 (doc_lines ["## Tao"; "### 1"; "Line A"; EmptyString; "  ";
                             "Line B"; EmptyString]))
  = parse_lines (PyStr.readlines
                   (doc_lines ["## Tao"; "### 1"; "Line A"; EmptyString;
                               "Line B"; EmptyString])).
Proof.
  apply (repeated_blank_line_ignored
           (PyStr.readlines (doc_lines ["## Tao"; "### 1"; "Line A"]))
           (PyStr.readlines (doc_lines ["Line B"; EmptyString]))
           PyStr.nl ("  " ++ PyStr.nl)%string); reflexivity.
Defined.

(** ** The line end of the last line *)

Lemma lstrip_hash_line (l : string) :
  PyStr.lstrip_hash (l ++ PyStr.nl) = (PyStr.lstrip_hash l ++ PyStr.nl)%string.
Proof.
  unfold PyStr.lstrip_hash.
  induction l as [|c l IH]; [reflexivity|].
  cbn [append PyStr.lstrip_by].
  destruct (Ascii.eqb "#" c); [exact IH | reflexivity].
Qed.

Lemma strip_app_nl (x : string) :
  PyStr.strip (x ++ PyStr.nl) = PyStr.strip x.
Proof.
  unfold PyStr.strip.
  assert (H : PyStr.lstrip_by PyStr.isspace (x ++ PyStr.nl) = EmptyString
              /\ PyStr.lstrip_by PyStr.isspace x = EmptyString
              \/ PyStr.lstrip_by PyStr.isspace (x ++ PyStr.nl)
                 = (PyStr.lstrip_by PyStr.isspace x ++ PyStr.nl)%string).
  { induction x as [|c x IH]; [now left|].
    cbn [append PyStr.lstrip_by].
    destruct (PyStr.isspace c); [exact IH | now right]. }
  destruct H as [[-> ->] | ->]; [reflexivity|].
  now apply rstrip_app_space.
Qed.

Lemma header_name_app_nl (l : string) :
  header_name (l ++ PyStr.nl) = header_name l.
Proof. unfold header_name. now rewrite lstrip_hash_line, strip_app_nl. Qed.


Lemma startswith_app_nl (p l : string) :
  has_nl p = false ->
  PyStr.startswith (l ++ PyStr.nl) p = PyStr.startswith l p.
Proof.
  unfold PyStr.startswith. revert l.
  induction p as [|a p IH]; intros l Hp.
  - destruct l; reflexivity.
  - cbn [has_nl] in Hp. apply orb_false_iff in Hp as [Ha Hp].
    destruct l as [|c l].
    + cbn [append PyStr.nl prefix].
      destruct (ascii_dec a (ascii_of_nat 10)) as [->|_]; [|reflexivity].
      discriminate.
    + cbn [append prefix]. destruct (ascii_dec a c); [now apply IH | reflexivity].
Qed.

Lemma step_app_nl (st : state) (l : string) :
  step st (l ++ PyStr.nl) = step st l.
Proof.
  unfold step, dispatch, section_header, chapter_header, text_line.
  rewrite !startswith_app_nl by reflexivity.
  now rewrite header_name_app_nl, strip_app_nl.
Qed.

Lemma readlines_app_nl (text : string) :
  text <> EmptyString -> ends_with_nl text = false ->
  exists ls l,
    PyStr.readlines text = ls ++ [l]
    /\ PyStr.readlines (text ++ PyStr.nl) = ls ++ [(l ++ PyStr.nl)%string].
Proof.
  induction text as [|c s IH]; [contradiction|]. intros _ He.
  destruct s as [|c' s'].
  - cbn [ends_with_nl] in He. exists [], (String c EmptyString).
    cbn [append PyStr.readlines PyStr.nl]. rewrite !He.
    split; reflexivity.
  - destruct IH as (ls & l & E1 & E2); [discriminate | exact He |].
    change ((String c (String c' s') ++ PyStr.nl)%string)
      with (String c (String c' s' ++ PyStr.nl)).
    set (s := String c' s') in *.
    cbn [PyStr.readlines]. rewrite E1, E2.
    destruct (Ascii.eqb c (ascii_of_nat 10)).
    + exists (String c EmptyString :: ls), l. split; reflexivity.
    + destruct ls as [|l0 ls].
      * exists [], (String c l). split; reflexivity.
      * exists (String c l0 :: ls), l. split; reflexivity.
Qed.

(** X18. Whether the last line of the file ends with a line end makes no
    difference to the book. *)
Theorem final_line_end_ignored (text : string) :
  text <> EmptyString -> ends_with_nl text = false ->
  parse_book (text ++ PyStr.nl) = parse_book text.
Proof.
  intros Hne He. unfold parse_book, parse_lines.
  destruct (readlines_app_nl text Hne He) as (ls & l & -> & ->).
  rewrite !run_snoc. destruct (run init ls) as [st|e]; simpl; [|reflexivity].
  now rewrite step_app_nl.
Qed.

Lemma final_line_end_ignored_witness :
  parse_book (doc8 ++ PyStr.nl) = parse_book doc8.
Proof.
  apply (final_line_end_ignored doc8); [discriminate | reflexivity].
Defined.
